(** * The DiffPy-CMI tutorial notebooks: what their code defines and computes

    The repository holds Jupyter notebooks that drive the diffpy.srreal /
    diffpy.srfit / pyobjcryst toolkit.  This development has three layers:

    - the Python syntax of every code cell of every notebook, transcribed
      statement by statement ([repository]), with decidable analyses over it
      (which functions are defined, where arithmetic, guards, loops,
      assertions and optimizer calls occur);
    - a shallow embedding of the components the notebooks define themselves
      ([RectangularProfile], [CarbonChain] and [convertCarbonChain],
      [LennardJonesCalculator], [quatzero], [chattyfit]) over the real
      numbers, with Python exceptions as an error result;
    - a small evaluator for the numeric fragment of the syntax, which ties the
      transcribed bodies to their shallow embedding. *)

From Stdlib Require Import String Ascii List Bool ZArith QArith Reals Lra Lia.
From Stdlib Require Import Qreals.
Import ListNotations.

#[local] Set Warnings "-register-all".
#[local] Open Scope string_scope.
#[local] Open Scope list_scope.

(** * Python syntax *)

(** Binary operators that occur in the notebooks.  [OMod] is only used for
    string formatting and [OLShift] is srfit's overloaded "set value"
    operator on a fit variable. *)
Inductive operator := OAdd | OSub | OMult | ODiv | OMod | OPow | OLShift.

Inductive unaryop := UAdd | USub.

Inductive cmpop := CLt | CGt | CEq | CIn.

Inductive boolop := BAnd | BOr.

(** Expressions.  Literals keep their kind: [EInt] for integer literals,
    [EFloat] for floating literals (as the decimal written in the source),
    [EStr] for string literals.  A keyword argument [name=value] of a call is
    an [EKeyword] element of the argument list. *)
Inductive expr :=
| EInt (n : Z)
| EFloat (q : Q)
| EStr (s : string)
| EBool (b : bool)
| ENone
| EName (id : string)
| EAttr (value : expr) (attr : string)
| ECall (func : expr) (args : list expr)
| EKeyword (arg : string) (value : expr)
| EStarred (value : expr)
| EBinOp (left : expr) (op : operator) (right : expr)
| EUnaryOp (op : unaryop) (operand : expr)
| EBoolOp (op : boolop) (values : list expr)
| ECompare (left : expr) (rest : list (cmpop * expr))
| EIfExp (test body orelse : expr)
| ETuple (elts : list expr)
| EList (elts : list expr)
| EListComp (elt target iter : expr) (ifs : list expr)
| EGenExp (elt target iter : expr) (ifs : list expr)
| ESubscript (value index : expr)
| ESlice (lower upper step : option expr).

(** Statements.  [SMagic] is an IPython line magic ([%matplotlib notebook],
    [%timeit pdfc()]).  [SWhile], [STry] and [SRaise] occur in no notebook;
    they are part of the syntax so that their absence is a fact about the
    transcription and not about the type. *)
Inductive stmt :=
| SExpr (value : expr)
| SAssign (targets : list expr) (value : expr)
| SAugAssign (target : expr) (op : operator) (value : expr)
| SReturn (value : option expr)
| SAssert (test : expr) (msg : option expr)
| SImport (names : list (string * option string))
| SImportFrom (module : string) (names : list (string * option string))
| SMagic (line : string)
| SFor (target iter : expr) (body : list stmt)
| SWhile (test : expr) (body : list stmt)
| SIf (test : expr) (body orelse : list stmt)
| SWith (context : expr) (var : option expr) (body : list stmt)
| STry (body handlers final : list stmt)
| SRaise (exc : option expr)
| SFunctionDef (name : string) (params : list (string * option expr))
    (decorators : list expr) (body : list stmt)
| SClassDef (name : string) (bases : list expr) (body : list stmt).

(** A code cell is a statement list; a notebook is its code cells in order. *)
Definition cell := list stmt.

Record notebook := { nb_file : string; nb_cells : list cell }.

(** * The code cells of the notebooks

    Each cell is transcribed from the [source] lines of the notebook's JSON.
    Comments are dropped; string literals are kept as written, except that a
    docstring has its runs of whitespace collapsed to single blanks and a
    newline escape is written [nl].  The file
    [03-SrFit-demo-constraints-restraints.ipynb] holds two notebooks, the
    second one ([nb03b], "Structure Representations") starting at line 539. *)

(** The newline character of an escape [\n]. *)
Definition nl : string := String (ascii_of_nat 10) EmptyString.

#[local] Open Scope Q_scope.

(** ** src/02-Function-Calculators.ipynb, from line 1: Function Calculators *)

(** Lines 50-69. *)
Definition nb02_cell01 : cell := [
  SMagic "matplotlib notebook";
  SImportFrom "__future__" [("print_function", None)];
  SImportFrom "matplotlib.pyplot" [("subplots", None); ("rc", None)];
  SExpr (ECall (EName "rc") [EStr "figure"; EKeyword "figsize" (ETuple [EInt 6; EFloat 4.5])]);
  SImportFrom "diffpy.Structure" [("loadStructure", None)];
  SImportFrom "pyobjcryst.crystal" [("CreateCrystalFromCIF", None)];
  SAssign [EName "nacl_stru"] (ECall (EName "loadStructure") [EStr "NaCl.cif"]);
  SAssign [EName "nacl_objc"] (ECall (EName "CreateCrystalFromCIF") [ECall (EName "open") [EStr
      "NaCl.cif"]]);
  SImportFrom "diffpy.srreal.bondcalculator" [("BondCalculator", None)];
  SAssign [EName "bc"] (ECall (EName "BondCalculator") [EKeyword "rmax" (EInt 3)]);
  SExpr (ECall (EName "print") [ECall (EName "bc") [EName "nacl_stru"]]);
  SExpr (ECall (EName "print") [ECall (EName "bc") [EName "nacl_objc"]])
].

(** Lines 85-92. *)
Definition nb02_cell02 : cell := [
  SAssign [EName "bcNaNa"] (ECall (EName "BondCalculator") [EKeyword "rmax" (EFloat 4.5)]);
  SExpr (ECall (EAttr (EName "bcNaNa") "setTypeMask") [EStr "Na1+"; EStr "Na1+"; EBool true;
      EKeyword "others" (EBool false)]);
  SAssign [EName "bcNaCl"] (ECall (EName "BondCalculator") [EKeyword "rmax" (EFloat 4.5)]);
  SExpr (ECall (EAttr (EName "bcNaCl") "setTypeMask") [EStr "Na1+"; EStr "Cl1-"; EBool true;
      EKeyword "others" (EBool false)]);
  SExpr (ECall (EName "print") [EStr "Na-Na:"; ECall (EName "bcNaNa") [EName "nacl_objc"]]);
  SExpr (ECall (EName "print") [EStr "Na-Cl:"; ECall (EName "bcNaCl") [EName "nacl_objc"]])
].

(** Lines 108-111. *)
Definition nb02_cell03 : cell := [
  SAssign [EName "tablerows"] (ECall (EName "zip") [EAttr (EName "bcNaCl") "distances"; EAttr
      (EName "bcNaCl") "sites0"; EAttr (EName "bcNaCl") "sites1"; EAttr (EName "bcNaCl")
      "types0"; EAttr (EName "bcNaCl") "types1"; EAttr (EName "bcNaCl") "directions"]);
  SFor (EName "r") (EName "tablerows") [
    SExpr (ECall (EName "print") [EStarred (EName "r")])
  ]
].

(** Lines 129-129. *)
Definition nb02_cell04 : cell := [
  SExpr (ECall (EName "help") [EName "BondCalculator"])
].

(** Lines 152-160. *)
Definition nb02_cell05 : cell := [
  SImportFrom "diffpy.srreal.pdfcalculator" [("PDFCalculator", None)];
  SAssign [EAttr (EName "nacl_stru") "Bisoequiv"] (EFloat 0.5);
  SAssign [EName "pdfc"] (ECall (EName "PDFCalculator") [EKeyword "rmax" (EInt 10)]);
  SAssign [EAttr (EName "pdfc") "evaluatortype"] (EStr "OPTIMIZED");
  SAssign [ETuple [EName "r"; EName "g"]] (ECall (EName "pdfc") [EName "nacl_stru"]);
  SExpr (ECall (EName "print") [EStr "first evaluation:"; EAttr (EName "pdfc")
      "evaluatortypeused"]);
  SAssign [ETuple [EName "r"; EName "g"]] (ECall (EName "pdfc") [EName "nacl_stru"]);
  SExpr (ECall (EName "print") [EStr "second evaluation:"; EAttr (EName "pdfc")
      "evaluatortypeused"])
].

(** Lines 176-179. *)
Definition nb02_cell06 : cell := [
  SAssign [EAttr (EName "pdfc") "evaluatortype"] (EStr "BASIC");
  SMagic "timeit pdfc()";
  SAssign [EAttr (EName "pdfc") "evaluatortype"] (EStr "OPTIMIZED");
  SMagic "timeit pdfc()"
].

(** Lines 204-219. *)
Definition nb02_cell07 : cell := [
  SImportFrom "diffpy.srreal.parallel" [("createParallelCalculator", None)];
  SAssign [EName "pdfc0"] (ECall (EName "PDFCalculator") []);
  SAssign [EName "pdfc2"] (ECall (EName "createParallelCalculator") [ECall (EName
      "PDFCalculator") []; EKeyword "ncpu" (EInt 2); EKeyword "pmap" (EName "map")]);
  SAssign [ETuple [EName "r0"; EName "g0"]] (ECall (EName "pdfc0") [EName "nacl_stru"]);
  SAssign [ETuple [EName "r2"; EName "g2"]] (ECall (EName "pdfc2") [EName "nacl_stru"]);
  SAssign [ETuple [EName "fig1"; EName "ax1"]] (ECall (EName "subplots") []);
  SExpr (ECall (EAttr (EName "ax1") "plot") [EName "r0"; EName "g0"; EStr "x"; EName "r2"; EName
      "g2"; EStr "-r"])
].

(** Lines 247-267. *)
Definition nb02_cell08 : cell := [
  SImportFrom "diffpy.Structure" [("Structure", None); ("Atom", None)];
  SAssign [EName "c10"] (ECall (EName "Structure") [EListComp (ECall (EName "Atom") [EStr "C";
      ETuple [EInt 0; EInt 0; EName "z"]]) (EName "z") (ECall (EName "range") [EInt 10]) []]);
  SAssign [EAttr (EName "c10") "Bisoequiv"] (EFloat 0.5);
  SImportFrom "diffpy.srreal.pdfcalculator" [("PDFCalculator", None)];
  SImportFrom "diffpy.srreal.pdfcalculator" [("DebyePDFCalculator", None)];
  SAssign [EName "pdfc"] (ECall (EName "PDFCalculator") [EKeyword "qmax" (EInt 18); EKeyword
      "rmax" (EInt 10)]);
  SAssign [EName "dbpdfc"] (ECall (EName "DebyePDFCalculator") [EKeyword "qmax" (EInt 18);
      EKeyword "rmax" (EInt 10)]);
  SAssign [EName "qmin"] (EInt 0);
  SAssign [ETuple [EName "r0"; EName "g0"]] (ECall (EName "pdfc") [EName "c10"; EKeyword "qmin"
      (EName "qmin")]);
  SAssign [ETuple [EName "r2"; EName "g2"]] (ECall (EName "dbpdfc") [EName "c10"; EKeyword
      "qmin" (EName "qmin")]);
  SAssign [ETuple [EName "fig2"; EName "ax2"]] (ECall (EName "subplots") []);
  SExpr (ECall (EAttr (EName "ax2") "plot") [EName "r0"; EName "g0"; EStr "x"; EName "r2"; EName
      "g2"; EStr "-r"])
].

(** Lines 290-301. *)
Definition nb02_cell09 : cell := [
  SImportFrom "diffpy.srreal.scatteringfactortable" [("SFTXray", None); ("SFTNeutron", None)];
  SAssign [EName "rutile"] (ECall (EName "loadStructure") [EStr "TiO2_rutile.cif"]);
  SAssign [EName "pcx"] (ECall (EName "PDFCalculator") []);
  SAssign [EAttr (EName "pcx") "scatteringfactortable"] (ECall (EName "SFTXray") []);
  SAssign [EName "pcn"] (ECall (EName "PDFCalculator") []);
  SAssign [EAttr (EName "pcn") "scatteringfactortable"] (ECall (EName "SFTNeutron") []);
  SAssign [ETuple [EName "fig3"; EName "ax3"]] (ECall (EName "subplots") []);
  SExpr (ECall (EAttr (EName "ax3") "plot") [EStarred (ECall (EName "pcx") [EName "rutile"]);
      EKeyword "marker" (EStr "x"); EKeyword "label" (EStr "x-ray")]);
  SExpr (ECall (EAttr (EName "ax3") "plot") [EStarred (ECall (EName "pcn") [EName "rutile"]);
      EKeyword "color" (EStr "red"); EKeyword "label" (EStr "neutron")]);
  SExpr (ECall (EAttr (EName "ax3") "legend") [])
].

(** Lines 317-350. *)
Definition nb02_cell10 : cell := [
  SImportFrom "diffpy.srreal.peakprofile" [("PeakProfile", None)];
  SClassDef "RectangularProfile" [EName "PeakProfile"] [
    SExpr (EStr "Rectangular profile with a unit area.");
    SFunctionDef "__call__" [("self", None); ("x", None); ("fwhm", None)] [] [
      SExpr (EStr "Evaluate zero-centered profile at the given position and width.");
      SAssign [EName "inside"] (ECompare (EBinOp (EUnaryOp USub (EName "fwhm")) ODiv (EFloat
          2.0)) [(CLt, EName "x"); (CLt, EBinOp (EUnaryOp UAdd (EName "fwhm")) ODiv (EFloat
          2.0))]);
      SAssign [EName "y"] (EIfExp (EName "inside") (EBinOp (EFloat 1.0) ODiv (EName "fwhm"))
          (EFloat 0.0));
      SReturn (Some (EName "y"))
    ];
    SFunctionDef "clone" [("self", None)] [] [
      SExpr (EStr "Return a copy of this profile object.");
      SImport [("copy", None)];
      SReturn (Some (ECall (EAttr (EName "copy") "copy") [EName "self"]))
    ];
    SFunctionDef "create" [("self", None)] [] [
      SExpr (EStr "Return a new instance of this profile class.");
      SReturn (Some (ECall (EName "RectangularProfile") []))
    ];
    SFunctionDef "type" [("self", None)] [] [
      SExpr (EStr "Return a unique string name for this profile function.");
      SReturn (Some (EStr "rectangularprofile"))
    ];
    SFunctionDef "xboundhi" [("self", None); ("fwhm", None)] [] [
      SExpr (EStr "Upper bound where profile becomes negligibly small.");
      SReturn (Some (EBinOp (EUnaryOp UAdd (EFloat 0.5)) OMult (EName "fwhm")))
    ];
    SFunctionDef "xboundlo" [("self", None); ("fwhm", None)] [] [
      SExpr (EStr "Lower bound where profile becomes negligibly small.");
      SReturn (Some (EBinOp (EUnaryOp USub (EFloat 0.5)) OMult (EName "fwhm")))
    ]
  ]
].

(** Lines 366-369. *)
Definition nb02_cell11 : cell := [
  SExpr (ECall (EAttr (EName "PeakProfile") "_deregisterType") [EStr "rectangularprofile"]);
  SExpr (ECall (EAttr (ECall (EName "RectangularProfile") []) "_registerThisType") []);
  SExpr (ECall (EName "print") [ECall (EAttr (EName "PeakProfile") "getRegisteredTypes") []])
].

(** Lines 385-391. *)
Definition nb02_cell12 : cell := [
  SAssign [EName "pdfc"] (ECall (EName "PDFCalculator") []);
  SAssign [EAttr (EName "pdfc") "peakprofile"] (ECall (EName "RectangularProfile") []);
  SExpr (ECall (EName "print") [EStr "Profile assigned by instance:"; EAttr (EName "pdfc")
      "peakprofile"]);
  SAssign [EAttr (EName "pdfc") "peakprofile"] (EStr "rectangularprofile");
  SExpr (ECall (EName "print") [EStr "Profile assigned by name:"; EAttr (EName "pdfc")
      "peakprofile"])
].

(** Lines 407-409. *)
Definition nb02_cell13 : cell := [
  SAssign [ETuple [EName "r"; EName "g"]] (ECall (EName "pdfc") [EName "rutile"]);
  SAssign [ETuple [EName "fig4"; EName "ax4"]] (ECall (EName "subplots") []);
  SExpr (ECall (EAttr (EName "ax4") "plot") [EName "r"; EName "g"])
].

(** Lines 434-437. *)
Definition nb02_cell14 : cell := [
  SClassDef "CarbonChain" [EName "object"] [
    SFunctionDef "__init__" [("self", None)] [] [
      SAssign [EAttr (EName "self") "Uiso"] (EFloat 0.004);
      SAssign [EAttr (EName "self") "z"] (EList [])
    ]
  ]
].

(** Lines 453-467. *)
Definition nb02_cell15 : cell := [
  SImportFrom "diffpy.srreal.structureconverters" [("RegisterStructureAdapter", None)];
  SFunctionDef "convertCarbonChain" [("thechain", None)] [ECall (EName
      "RegisterStructureAdapter") [EStr "__main__.CarbonChain"]] [
    SImportFrom "diffpy.srreal.structureadapter" [("AtomicStructureAdapter", None)];
    SImportFrom "diffpy.srreal.structureadapter" [("Atom", Some "AdptAtom")];
    SAssign [EName "adpt"] (ECall (EName "AtomicStructureAdapter") []);
    SAssign [EName "a"] (ECall (EName "AdptAtom") []);
    SAssign [EAttr (EName "a") "atomtype"] (EStr "C");
    SAssign [EAttr (EName "a") "uc11"; EAttr (EName "a") "uc22"; EAttr (EName "a") "uc33"]
        (EAttr (EName "thechain") "Uiso");
    SFor (EName "z") (EAttr (EName "thechain") "z") [
      SAssign [EAttr (EName "a") "zc"] (EName "z");
      SExpr (ECall (EAttr (EName "adpt") "append") [EName "a"])
    ];
    SReturn (Some (EName "adpt"))
  ]
].

(** Lines 483-487. *)
Definition nb02_cell16 : cell := [
  SImportFrom "diffpy.srreal.structureadapter" [("createStructureAdapter", None)];
  SAssign [EName "c5"] (ECall (EName "CarbonChain") []);
  SAssign [EAttr (EName "c5") "z"] (ECall (EName "range") [EInt 5]);
  SExpr (ECall (EName "createStructureAdapter") [EName "c5"])
].

(** Lines 503-505. *)
Definition nb02_cell17 : cell := [
  SAssign [EName "bc"] (ECall (EName "BondCalculator") []);
  SExpr (ECall (EName "bc") [EName "c5"])
].

(** Lines 514-520. *)
Definition nb02_cell18 : cell := [
  SAssign [EName "pdfc"] (ECall (EName "PDFCalculator") [EKeyword "rmax" (EInt 5)]);
  SAssign [EAttr (EName "c5") "Uiso"] (EFloat 0.006);
  SAssign [ETuple [EName "fig5"; EName "ax5"]] (ECall (EName "subplots") []);
  SExpr (ECall (EAttr (EName "ax5") "plot") [EStarred (ECall (EName "pdfc") [EName "c5"])]);
  SAssign [EAttr (EName "c5") "Uiso"] (EFloat 0.003);
  SExpr (ECall (EAttr (EName "ax5") "plot") [EStarred (ECall (EName "pdfc") [EName "c5"])])
].

(** Lines 549-584. *)
Definition nb02_cell19 : cell := [
  SImportFrom "diffpy.srreal.pairquantity" [("PairQuantity", None)];
  SClassDef "LennardJonesCalculator" [EName "PairQuantity"] [
    SAssign [EName "epsilon"] (EFloat 1.0);
    SAssign [EName "sigma"] (EFloat 1.0);
    SFunctionDef "__init__" [("self", None)] [] [
      SExpr (ECall (EAttr (EName "PairQuantity") "__init__") [EName "self"]);
      SAssign [EAttr (EName "self") "rmax"] (EInt 10);
      SReturn None
    ];
    SFunctionDef "_resetValue" [("self", None)] [] [
      SExpr (EStr "Clear old results at the beginning of evaluation.");
      SAssign [EAttr (EName "self") "_vljtotal"] (EFloat 0.0);
      SReturn None
    ];
    SFunctionDef "_addPairContribution" [("self", None); ("bond", None); ("sumscale", None)] []
        [
      SExpr (EStr
          "Process contribution from one atom pair. bond -- BaseBondGenerator object that describes the current pair of atom sites. sumscale -- multiplicity of the current atom pair.");
      SAssign [EName "nmrij"] (EBinOp (ECall (EAttr (EName "bond") "distance") []) ODiv (EAttr
          (EName "self") "sigma"));
      SAssign [EName "vij"] (EBinOp (EBinOp (EInt 4) OMult (EAttr (EName "self") "epsilon"))
          OMult (EBinOp (EBinOp (EName "nmrij") OPow (EUnaryOp USub (EInt 12))) OSub (EBinOp
          (EName "nmrij") OPow (EUnaryOp USub (EInt 6)))));
      SAugAssign (EAttr (EName "self") "_vljtotal") OAdd (EBinOp (EBinOp (EFloat 0.5) OMult
          (EName "vij")) OMult (EName "sumscale"));
      SReturn None
    ];
    SFunctionDef "__call__" [("self", None); ("structure", Some ENone)] [] [
      SExpr (EStr "Return LJ potential for the specified structure.");
      SExpr (ECall (EAttr (EName "self") "eval") [EName "structure"]);
      SReturn (Some (EAttr (EName "self") "_vljtotal"))
    ]
  ]
].

(** Lines 600-604. *)
Definition nb02_cell20 : cell := [
  SAssign [EName "ljcalc"] (ECall (EName "LennardJonesCalculator") []);
  SExpr (ECall (EName "print") [EStr "ljcalc(c5) ="; ECall (EName "ljcalc") [EName "c5"]]);
  SAssign [EAttr (EName "ljcalc") "epsilon"] (EInt 2);
  SExpr (ECall (EName "print") [EStr "Recalculate with LJ epsilon ="; EAttr (EName "ljcalc")
      "epsilon"]);
  SExpr (ECall (EName "print") [EStr "ljcalc() ="; ECall (EName "ljcalc") []])
].

Definition nb02 : notebook :=
  {| nb_file := "02-Function-Calculators.ipynb";
     nb_cells := [nb02_cell01; nb02_cell02; nb02_cell03; nb02_cell04; nb02_cell05; nb02_cell06;
         nb02_cell07; nb02_cell08; nb02_cell09; nb02_cell10; nb02_cell11;
         nb02_cell12; nb02_cell13; nb02_cell14; nb02_cell15; nb02_cell16;
         nb02_cell17; nb02_cell18; nb02_cell19; nb02_cell20] |}.

(** ** src/03-SrFit-demo-constraints-restraints.ipynb, from line 1: SrFit example for a simple linear fit to a noisy data. *)

(** Lines 9-12. *)
Definition nb03_cell01 : cell := [
  SMagic "matplotlib notebook";
  SImportFrom "__future__" [("print_function", None)];
  SImportFrom "matplotlib.pyplot" [("subplots", None)]
].

(** Lines 35-41. *)
Definition nb03_cell02 : cell := [
  SImport [("numpy", Some "np")];
  SAssign [EName "xobs"] (ECall (EAttr (EName "np") "arange") [EUnaryOp USub (EInt 10); EFloat
      10.1]);
  SAssign [EName "dyobs"] (EBinOp (EFloat 0.3) OMult (ECall (EAttr (EName "np") "ones_like")
      [EName "xobs"]));
  SAssign [EName "yobs"] (EBinOp (EBinOp (EBinOp (EFloat 0.5) OMult (EName "xobs")) OAdd (EInt
      3)) OAdd (EBinOp (EName "dyobs") OMult (ECall (EAttr (EAttr (EName "np") "random")
      "randn") [EAttr (EName "xobs") "size"])));
  SAssign [ETuple [EName "fig1"; EName "ax1"]] (ECall (EName "subplots") []);
  SExpr (ECall (EAttr (EName "ax1") "plot") [EName "xobs"; EName "yobs"; EStr "x"]);
  SExpr (ECall (EAttr (EName "ax1") "set_title") [EStr
      "y = 0.5*x + 3 generated with a normal noise at sigma=0.3"])
].

(** Lines 58-60. *)
Definition nb03_cell03 : cell := [
  SImportFrom "diffpy.srfit.fitbase" [("Profile", None)];
  SAssign [EName "linedata"] (ECall (EName "Profile") []);
  SExpr (ECall (EAttr (EName "linedata") "setObservedProfile") [EName "xobs"; EName "yobs";
      EName "dyobs"])
].

(** Lines 76-79. *)
Definition nb03_cell04 : cell := [
  SImportFrom "diffpy.srfit.fitbase" [("FitContribution", None)];
  SAssign [EName "linefit"] (ECall (EName "FitContribution") [EStr "linefit"]);
  SExpr (ECall (EAttr (EName "linefit") "setProfile") [EName "linedata"]);
  SExpr (ECall (EAttr (EName "linefit") "setEquation") [EStr "A * x + B"])
].

(** Lines 97-97. *)
Definition nb03_cell05 : cell := [
  SExpr (ECall (EAttr (EName "linefit") "show") [])
].

(** Lines 116-120. *)
Definition nb03_cell06 : cell := [
  SExpr (EAttr (EName "linefit") "A");
  SAssign [EAttr (EName "linefit") "A"] (EInt 3);
  SAssign [EAttr (EName "linefit") "B"] (EInt 5);
  SExpr (ECall (EName "print") [EAttr (EName "linefit") "A"; EAttr (EAttr (EName "linefit") "A")
      "value"]);
  SExpr (ECall (EName "print") [EAttr (EName "linefit") "B"; EAttr (EAttr (EName "linefit") "B")
      "value"])
].

(** Lines 138-142. *)
Definition nb03_cell07 : cell := [
  SExpr (ECall (EName "print") [EStr "linefit.evaluate() ="; ECall (EAttr (EName "linefit")
      "evaluate") []]);
  SExpr (ECall (EName "print") [EStr "linefit.residual() ="; ECall (EAttr (EName "linefit")
      "residual") []]);
  SAssign [ETuple [EName "fig2"; EName "ax2"]] (ECall (EName "subplots") []);
  SExpr (ECall (EAttr (EName "ax2") "plot") [EName "xobs"; EName "yobs"; EStr "x"; EAttr (EName
      "linedata") "x"; ECall (EAttr (EName "linefit") "evaluate") []; EStr "-"]);
  SExpr (ECall (EAttr (EName "ax2") "set_title") [EStr "Line simulated at A=3, B=5"])
].

(** Lines 161-162. *)
Definition nb03_cell08 : cell := [
  SImportFrom "diffpy.srfit.fitbase" [("FitRecipe", None)];
  SAssign [EName "rec"] (ECall (EName "FitRecipe") [])
].

(** Lines 178-180. *)
Definition nb03_cell09 : cell := [
  SExpr (ECall (EAttr (EName "rec") "clearFitHooks") []);
  SExpr (ECall (EAttr (EName "rec") "addContribution") [EName "linefit"]);
  SExpr (ECall (EAttr (EName "rec") "show") [])
].

(** Lines 197-198. *)
Definition nb03_cell10 : cell := [
  SExpr (ECall (EAttr (EName "rec") "addVar") [EAttr (EAttr (EName "rec") "linefit") "A"]);
  SExpr (ECall (EAttr (EName "rec") "addVar") [EAttr (EAttr (EName "rec") "linefit") "B"])
].

(** Lines 215-216. *)
Definition nb03_cell11 : cell := [
  SExpr (ECall (EName "print") [EStr "rec.A ="; EAttr (EName "rec") "A"]);
  SExpr (ECall (EName "print") [EStr "rec.A.value ="; EAttr (EAttr (EName "rec") "A") "value"])
].

(** Lines 233-234. *)
Definition nb03_cell12 : cell := [
  SExpr (ECall (EName "print") [EStr "rec.values ="; EAttr (EName "rec") "values"]);
  SExpr (ECall (EName "print") [EStr "rec.names ="; EAttr (EName "rec") "names"])
].

(** Lines 253-254. *)
Definition nb03_cell13 : cell := [
  SExpr (ECall (EName "print") [EStr "rec.residual() ="; ECall (EAttr (EName "rec") "residual")
      []]);
  SExpr (ECall (EName "print") [EStr "rec.residual([2, 4]) ="; ECall (EAttr (EName "rec")
      "residual") [EList [EInt 2; EInt 4]]])
].

(** Lines 271-272. *)
Definition nb03_cell14 : cell := [
  SImportFrom "scipy.optimize" [("leastsq", None)];
  SExpr (ECall (EName "leastsq") [EAttr (EName "rec") "residual"; EAttr (EName "rec") "values"])
].

(** Lines 289-290. *)
Definition nb03_cell15 : cell := [
  SExpr (ECall (EName "print") [EAttr (EName "rec") "names"; EStr "-->"; EAttr (EName "rec")
      "values"]);
  SExpr (ECall (EAttr (EName "linefit") "show") [])
].

(** Lines 308-310. *)
Definition nb03_cell16 : cell := [
  SAssign [ETuple [EName "fig3"; EName "ax3"]] (ECall (EName "subplots") []);
  SExpr (ECall (EAttr (EName "ax3") "plot") [EAttr (EName "linedata") "x"; EAttr (EName
      "linedata") "y"; EStr "x"; EAttr (EName "linedata") "x"; EAttr (EName "linedata") "ycalc";
      EStr "-"]);
  SExpr (ECall (EAttr (EName "ax3") "set_title") [EStr
      "Line fit using the leastsq least-squares optimizer"])
].

(** Lines 327-332. *)
Definition nb03_cell17 : cell := [
  SImportFrom "scipy.optimize" [("fmin", None)];
  SExpr (ECall (EName "fmin") [EAttr (EName "rec") "scalarResidual"; EList [EInt 1; EInt 1]]);
  SExpr (ECall (EName "print") [EAttr (EName "rec") "names"; EStr "-->"; EAttr (EName "rec")
      "values"]);
  SAssign [ETuple [EName "fig4"; EName "ax4"]] (ECall (EName "subplots") []);
  SExpr (ECall (EAttr (EName "ax4") "plot") [EAttr (EName "linedata") "x"; EAttr (EName
      "linedata") "y"; EStr "x"; EAttr (EName "linedata") "x"; EAttr (EName "linedata") "ycalc";
      EStr "-"]);
  SExpr (ECall (EAttr (EName "ax4") "set_title") [EStr
      "Line fit using the fmin scalar optimizer"])
].

(** Lines 349-351. *)
Definition nb03_cell18 : cell := [
  SImportFrom "diffpy.srfit.fitbase" [("FitResults", None)];
  SAssign [EName "res"] (ECall (EName "FitResults") [EName "rec"]);
  SExpr (ECall (EName "print") [EName "res"])
].

(** Lines 367-367. *)
Definition nb03_cell19 : cell := [
  SExpr (ECall (EAttr (EName "rec") "fix") [EKeyword "B" (EInt 0)])
].

(** Lines 384-385. *)
Definition nb03_cell20 : cell := [
  SExpr (ECall (EName "print") [EStr "free:"; EAttr (EName "rec") "names"; EStr "-->"; EAttr
      (EName "rec") "names"]);
  SExpr (ECall (EName "print") [EStr "fixed:"; EAttr (EName "rec") "fixednames"; EStr "-->";
      EAttr (EName "rec") "fixedvalues"])
].

(** Lines 401-405. *)
Definition nb03_cell21 : cell := [
  SExpr (ECall (EName "leastsq") [EAttr (EName "rec") "residual"; EAttr (EName "rec")
      "values"]);
  SExpr (ECall (EName "print") [ECall (EName "FitResults") [EName "rec"]]);
  SAssign [ETuple [EName "fig5"; EName "ax5"]] (ECall (EName "subplots") []);
  SExpr (ECall (EAttr (EName "ax5") "plot") [EAttr (EName "linedata") "x"; EAttr (EName
      "linedata") "y"; EStr "x"; EAttr (EName "linedata") "x"; EAttr (EName "linedata") "ycalc";
      EStr "-"]);
  SExpr (ECall (EAttr (EName "ax5") "set_title") [EStr "Line fit for variable B fixed to B=0"])
].

(** Lines 422-422. *)
Definition nb03_cell22 : cell := [
  SExpr (ECall (EAttr (EName "rec") "free") [EStr "all"])
].

(** Lines 438-438. *)
Definition nb03_cell23 : cell := [
  SExpr (ECall (EAttr (EName "rec") "constrain") [EAttr (EName "rec") "A"; EStr "2 * B"])
].

(** Lines 454-458. *)
Definition nb03_cell24 : cell := [
  SExpr (ECall (EName "leastsq") [EAttr (EName "rec") "residual"; EAttr (EName "rec")
      "values"]);
  SExpr (ECall (EName "print") [ECall (EName "FitResults") [EName "rec"]]);
  SAssign [ETuple [EName "fig6"; EName "ax6"]] (ECall (EName "subplots") []);
  SExpr (ECall (EAttr (EName "ax6") "plot") [EAttr (EName "linedata") "x"; EAttr (EName
      "linedata") "y"; EStr "x"; EAttr (EName "linedata") "x"; EAttr (EName "linedata") "ycalc";
      EStr "-"]);
  SExpr (ECall (EAttr (EName "ax6") "set_title") [EStr
      "Line fit for variable A constrained to A = 2*B"])
].

(** Lines 474-474. *)
Definition nb03_cell25 : cell := [
  SExpr (ECall (EAttr (EName "rec") "unconstrain") [EAttr (EName "rec") "A"])
].

(** Lines 492-492. *)
Definition nb03_cell26 : cell := [
  SAssign [EName "arst"] (ECall (EAttr (EName "rec") "restrain") [EAttr (EName "rec") "A";
      EKeyword "ub" (EFloat 0.2); EKeyword "sig" (EFloat 0.001)])
].

(** Lines 508-512. *)
Definition nb03_cell27 : cell := [
  SExpr (ECall (EName "leastsq") [EAttr (EName "rec") "residual"; EAttr (EName "rec")
      "values"]);
  SExpr (ECall (EName "print") [ECall (EName "FitResults") [EName "rec"]]);
  SAssign [ETuple [EName "fig7"; EName "ax7"]] (ECall (EName "subplots") []);
  SExpr (ECall (EAttr (EName "ax7") "plot") [EAttr (EName "linedata") "x"; EAttr (EName
      "linedata") "y"; EStr "x"; EAttr (EName "linedata") "x"; EAttr (EName "linedata") "ycalc";
      EStr "-"]);
  SExpr (ECall (EAttr (EName "ax7") "set_title") [EStr
      "Line fit with A restrained to an upper bound of 0.2"])
].

Definition nb03 : notebook :=
  {| nb_file := "03-SrFit-demo-constraints-restraints.ipynb";
     nb_cells := [nb03_cell01; nb03_cell02; nb03_cell03; nb03_cell04; nb03_cell05; nb03_cell06;
         nb03_cell07; nb03_cell08; nb03_cell09; nb03_cell10; nb03_cell11;
         nb03_cell12; nb03_cell13; nb03_cell14; nb03_cell15; nb03_cell16;
         nb03_cell17; nb03_cell18; nb03_cell19; nb03_cell20; nb03_cell21;
         nb03_cell22; nb03_cell23; nb03_cell24; nb03_cell25; nb03_cell26;
         nb03_cell27] |}.

(** ** src/03-SrFit-demo-constraints-restraints.ipynb, from line 539: Structure Representations *)

(** Lines 580-588. *)
Definition nb03b_cell01 : cell := [
  SImportFrom "__future__" [("print_function", None)];
  SImportFrom "diffpy.Structure" [("Structure", None); ("Atom", None); ("Lattice", None)];
  SAssign [EName "acs"] (ECall (EName "Atom") [EStr "Cs"; EList [EInt 0; EInt 0; EInt 0]]);
  SAssign [EName "acl"] (ECall (EName "Atom") [EStr "Cl"; EList [EFloat 0.5; EFloat 0.5; EFloat
      0.5]]);
  SAssign [EName "cscl"] (ECall (EName "Structure") [EKeyword "atoms" (EList [EName "acs"; EName
      "acl"]); EKeyword "lattice" (ECall (EName "Lattice") [EFloat 4.123; EFloat 4.123; EFloat
      4.123; EInt 90; EInt 90; EInt 90])]);
  SExpr (ECall (EName "print") [EName "cscl"])
].

(** Lines 604-607. *)
Definition nb03b_cell02 : cell := [
  SExpr (ECall (EName "print") [ESubscript (EName "cscl") (EInt 0); EStr (nl ++ "---")%string]);
  SExpr (ECall (EName "print") [ESubscript (EName "cscl") (ESlice None None (Some (EUnaryOp USub
      (EInt 1)))); EStr (nl ++ "---")%string]);
  SExpr (ECall (EName "print") [ESubscript (EName "cscl") (EList [EInt 1]); EStr (nl ++
      "---")%string]);
  SExpr (ECall (EName "print") [ESubscript (EName "cscl") (ECompare (EAttr (EName "cscl") "x")
      [(CLt, EFloat 0.2)])])
].

(** Lines 623-627. *)
Definition nb03b_cell03 : cell := [
  SExpr (ECall (EName "print") [EStr "Cl Cartesian coordinates:"; EAttr (ESubscript (EName
      "cscl") (EInt 1)) "xyz_cartn"]);
  SExpr (ECall (EName "print") [EStr "Cs-Cl distance:"; ECall (EAttr (EName "cscl") "distance")
      [EInt 0; EInt 1]]);
  SExpr (ECall (EAttr (EAttr (EName "cscl") "lattice") "setLatPar") [EKeyword "a" (EInt 3);
      EKeyword "b" (EInt 3); EKeyword "c" (EInt 3)]);
  SExpr (ECall (EName "print") [EStr "Cl Cartesian coordinates:"; EAttr (ESubscript (EName
      "cscl") (EInt 1)) "xyz_cartn"]);
  SExpr (ECall (EName "print") [EStr "Cs-Cl distance:"; ECall (EAttr (EName "cscl") "distance")
      [EInt 0; EInt 1]])
].

(** Lines 643-646. *)
Definition nb03b_cell04 : cell := [
  SAssign [EAttr (EName "cscl") "Uisoequiv"] (EFloat 0.003);
  SExpr (ECall (EName "print") [EAttr (EName "cscl") "Uisoequiv"]);
  SAssign [EAttr (ESubscript (EName "cscl") (ECompare (EAttr (EName "cscl") "element") [(CEq,
      EStr "Cl")])) "Uisoequiv"] (EFloat 0.004);
  SExpr (ECall (EName "print") [EAttr (EName "cscl") "Uisoequiv"])
].

(** Lines 662-663. *)
Definition nb03b_cell05 : cell := [
  SExpr (ECall (EName "print") [EAttr (EName "cscl") "U"; EStr (nl ++ "---")%string]);
  SExpr (ECall (EName "print") [EAttr (EName "cscl") "anisotropy"])
].

(** Lines 672-676. *)
Definition nb03b_cell06 : cell := [
  SAssign [EAttr (ESubscript (EName "cscl") (EInt 0)) "anisotropy"] (EBool true);
  SAssign [EAttr (ESubscript (EName "cscl") (EInt 0)) "U11"] (EFloat 0.004);
  SExpr (ECall (EName "print") [EAttr (EName "cscl") "U"; EStr (nl ++ "---")%string]);
  SExpr (ECall (EName "print") [EAttr (EName "cscl") "anisotropy"])
].

(** Lines 692-694. *)
Definition nb03b_cell07 : cell := [
  SImportFrom "diffpy.Structure" [("loadStructure", None)];
  SAssign [EName "nacl"] (ECall (EName "loadStructure") [EStr "NaCl.cif"]);
  SExpr (ECall (EName "print") [EName "nacl"])
].

(** Lines 710-715. *)
Definition nb03b_cell08 : cell := [
  SImportFrom "diffpy.Structure.SpaceGroups" [("GetSpaceGroup", None)];
  SImportFrom "diffpy.Structure.SymmetryUtilities" [("ExpandAsymmetricUnit", None)];
  SAssign [EName "Fm3m"] (ECall (EName "GetSpaceGroup") [EStr "Fm-3m"]);
  SAssign [EName "eau"] (ECall (EName "ExpandAsymmetricUnit") [EName "Fm3m"; EKeyword "corepos"
      (EList [EList [EInt 0; EInt 0; EInt 0]])]);
  SExpr (EAttr (EName "eau") "expandedpos")
].

(** Lines 731-739. *)
Definition nb03b_cell09 : cell := [
  SImportFrom "diffpy.Structure.SymmetryUtilities" [("SymmetryConstraints", None)];
  SAssign [EName "symcon"] (ECall (EName "SymmetryConstraints") [EName "Fm3m"; EKeyword
      "positions" (EAttr (EName "nacl") "xyz")]);
  SExpr (ECall (EName "print") [EStr "asymmetric unit and the equivalent positions:"; EAttr
      (EName "symcon") "coremap"]);
  SExpr (ECall (EName "print") [EStr "position parameters:"; EAttr (EName "symcon") "pospars"]);
  SExpr (ECall (EName "print") [EStr "position constraints on the 1-st site:"; ESubscript (EAttr
      (EName "symcon") "poseqns") (EInt 0)]);
  SExpr (ECall (EName "print") [EStr "ADP parameters:"; EAttr (EName "symcon") "Upars"]);
  SExpr (ECall (EName "print") [EStr "ADP constraints on the 1-st site:"; ESubscript (EAttr
      (EName "symcon") "Ueqns") (EInt 0)])
].

(** Lines 769-772. *)
Definition nb03b_cell10 : cell := [
  SImportFrom "pyobjcryst.crystal" [("CreateCrystalFromCIF", None)];
  SAssign [EName "nacl"] (ECall (EName "CreateCrystalFromCIF") [ECall (EName "open") [EStr
      "NaCl.cif"]]);
  SExpr (ECall (EName "print") [EName "nacl"])
].

(** Lines 788-788. *)
Definition nb03b_cell11 : cell := [
  SExpr (ECall (EName "print") [ECall (EAttr (EName "nacl") "GetSpaceGroup") []])
].

(** Lines 804-815. *)
Definition nb03b_cell12 : cell := [
  SImportFrom "pyobjcryst.crystal" [("Crystal", None)];
  SExpr (ECall (EName "print") [EStr "ORIGINAL:"]);
  SFor (EName "sc") (ECall (EAttr (EName "nacl") "GetScatteringComponentList") []) [
    SExpr (ECall (EName "print") [EName "sc"])
  ];
  SExpr (ECall (EName "print") [EStr "Na-Cl distance:"; ESubscript (ECall (EAttr (EName "nacl")
      "GetMinDistanceTable") []) (ETuple [EInt 0; EInt 1])]);
  SAssign [EName "a2"] (EInt 7);
  SAssign [ETuple [EAttr (EName "nacl") "a"; EAttr (EName "nacl") "b"; EAttr (EName "nacl")
      "c"]] (ETuple [EName "a2"; EName "a2"; EName "a2"]);
  SExpr (ECall (EName "print") [EStr "EXPANDED:"]);
  SFor (EName "sc") (ECall (EAttr (EName "nacl") "GetScatteringComponentList") []) [
    SExpr (ECall (EName "print") [EName "sc"])
  ];
  SExpr (ECall (EName "print") [EStr "Na-Cl distance:"; ESubscript (ECall (EAttr (EName "nacl")
      "GetMinDistanceTable") []) (ETuple [EInt 0; EInt 1])])
].

(** Lines 831-861. *)
Definition nb03b_cell13 : cell := [
  SImportFrom "pyobjcryst.crystal" [("Crystal", None)];
  SImportFrom "pyobjcryst.molecule" [("Molecule", None)];
  SImportFrom "pyobjcryst.scatteringpower" [("ScatteringPowerAtom", None)];
  SAssign [EName "crst"] (ECall (EName "Crystal") [EInt 4; EInt 4; EInt 4; EStr "P1"]);
  SAssign [EName "spC"] (ECall (EName "ScatteringPowerAtom") [EStr "Carbon"; EStr "C"]);
  SExpr (ECall (EAttr (EName "crst") "AddScatteringPower") [EName "spC"]);
  SAssign [EName "mol"] (ECall (EName "Molecule") [EName "crst"; EStr "mol"]);
  SExpr (ECall (EAttr (EName "mol") "AddAtom") [EUnaryOp USub (EInt 1); EInt 0; EInt 0; EName
      "spC"; EStr "C1"]);
  SExpr (ECall (EAttr (EName "mol") "AddAtom") [EUnaryOp UAdd (EInt 1); EInt 0; EInt 0; EName
      "spC"; EStr "C2"]);
  SExpr (ECall (EAttr (EName "crst") "AddScatterer") [EName "mol"]);
  SExpr (ECall (EName "print") [EStr "ORIGINAL:"]);
  SFor (EName "sc") (ECall (EAttr (EName "crst") "GetScatteringComponentList") []) [
    SExpr (ECall (EName "print") [EName "sc"])
  ];
  SExpr (ECall (EName "print") [EStr "C1-C2 distance:"; ESubscript (ECall (EAttr (EName "crst")
      "GetMinDistanceTable") []) (ETuple [EInt 0; EInt 1])]);
  SAssign [ETuple [EAttr (EName "crst") "a"; EAttr (EName "crst") "b"; EAttr (EName "crst")
      "c"]] (ETuple [EInt 8; EInt 8; EInt 8]);
  SExpr (ECall (EName "print") [EStr "EXPANDED:"]);
  SFor (EName "sc") (ECall (EAttr (EName "crst") "GetScatteringComponentList") []) [
    SExpr (ECall (EName "print") [EName "sc"])
  ];
  SExpr (ECall (EName "print") [EStr "C1-C2 distance:"; ESubscript (ECall (EAttr (EName "crst")
      "GetMinDistanceTable") []) (ETuple [EInt 0; EInt 1])])
].

(** Lines 877-895. *)
Definition nb03b_cell14 : cell := [
  SImportFrom "math" [("pi", None)];
  SImportFrom "pyobjcryst.molecule" [("Quaternion", None)];
  SAssign [EName "qnone"] (ECall (EAttr (EName "Quaternion") "RotationQuaternion") [EInt 0; EInt
      0; EInt 0; EInt 1]);
  SAssign [EName "qz90"] (ECall (EAttr (EName "Quaternion") "RotationQuaternion") [EBinOp
      (EFloat 0.5) OMult (EName "pi"); EInt 0; EInt 0; EInt 1]);
  SAssign [EAttr (EName "mol") "Y"] (EFloat 0.5);
  SAssign [ETuple [EAttr (EName "mol") "Q0"; EAttr (EName "mol") "Q1"; EAttr (EName "mol") "Q2";
      EAttr (EName "mol") "Q3"]] (ETuple [EAttr (EName "qnone") "Q0"; EAttr (EName "qnone")
      "Q1"; EAttr (EName "qnone") "Q2"; EAttr (EName "qnone") "Q3"]);
  SExpr (ECall (EName "print") [EStr "MOVED:"]);
  SFor (EName "sc") (ECall (EAttr (EName "crst") "GetScatteringComponentList") []) [
    SExpr (ECall (EName "print") [EName "sc"])
  ];
  SAssign [ETuple [EAttr (EName "mol") "Q0"; EAttr (EName "mol") "Q1"; EAttr (EName "mol") "Q2";
      EAttr (EName "mol") "Q3"]] (ETuple [EAttr (EName "qz90") "Q0"; EAttr (EName "qz90") "Q1";
      EAttr (EName "qz90") "Q2"; EAttr (EName "qz90") "Q3"]);
  SExpr (ECall (EName "print") [EStr "ROTATED:"]);
  SFor (EName "sc") (ECall (EAttr (EName "crst") "GetScatteringComponentList") []) [
    SExpr (ECall (EName "print") [EName "sc"])
  ]
].

Definition nb03b : notebook :=
  {| nb_file := "03-SrFit-demo-constraints-restraints.ipynb";
     nb_cells := [nb03b_cell01; nb03b_cell02; nb03b_cell03; nb03b_cell04; nb03b_cell05;
         nb03b_cell06; nb03b_cell07; nb03b_cell08; nb03b_cell09; nb03b_cell10;
         nb03b_cell11; nb03b_cell12; nb03b_cell13; nb03b_cell14] |}.

(** ** src/05-Fit-NaCl-BVS-restraint.ipynb, from line 1: Demo PDF refinement with BVS restraint *)

(** Lines 18-31. *)
Definition nb05_cell01 : cell := [
  SMagic "matplotlib notebook";
  SImportFrom "matplotlib.pyplot" [("*", None)];
  SExpr (ECall (EName "rc") [EStr "figure"; EKeyword "figsize" (ETuple [EInt 8; EInt 6])]);
  SImportFrom "diffpy.Structure" [("loadStructure", None)];
  SImportFrom "diffpy.srfit.pdf" [("PDFContribution", None)];
  SImportFrom "diffpy.srfit.structure" [("constrainAsSpaceGroup", None)];
  SImportFrom "diffpy.srfit.fitbase" [("FitRecipe", None); ("FitResults", None)];
  SImportFrom "scipy.optimize" [("leastsq", None)]
].

(** Lines 40-43. *)
Definition nb05_cell02 : cell := [
  SAssign [EName "dataFile"] (EStr "NaCl.gr");
  SAssign [EName "structureFile"] (EStr "NaCl.cif");
  SAssign [EName "spaceGroup"] (EStr "F m -3 m")
].

(** Lines 52-56. *)
Definition nb05_cell03 : cell := [
  SAssign [EName "cpdf"] (ECall (EName "PDFContribution") [EStr "cpdf"])
].

(** Lines 65-67. *)
Definition nb05_cell04 : cell := [
  SExpr (ECall (EAttr (EName "cpdf") "loadData") [EName "dataFile"]);
  SExpr (ECall (EAttr (EName "cpdf") "setCalculationRange") [EKeyword "xmin" (EInt 1); EKeyword
      "xmax" (EInt 30); EKeyword "dx" (EFloat 0.02)])
].

(** Lines 76-78. *)
Definition nb05_cell05 : cell := [
  SAssign [EName "nacl"] (ECall (EName "loadStructure") [EName "structureFile"]);
  SExpr (ECall (EAttr (EName "cpdf") "addStructure") [EStr "nacl"; EName "nacl"])
].

(** Lines 87-92. *)
Definition nb05_cell06 : cell := [
  SAssign [EName "sgpars"] (ECall (EName "constrainAsSpaceGroup") [EAttr (EAttr (EName "cpdf")
      "nacl") "phase"; EName "spaceGroup"]);
  SExpr (ECall (EName "print") [EBinOp (EBinOp (EStr "Space group parameters are ") OAdd (ECall
      (EAttr (EStr ", ") "join") [EGenExp (EAttr (EName "p") "name") (EName "p") (EName
      "sgpars") []])) OAdd (EStr ".")])
].

(** Lines 101-105. *)
Definition nb05_cell07 : cell := [
  SAssign [EName "rbv"] (ECall (EAttr (EAttr (EAttr (EName "cpdf") "nacl") "phase")
      "restrainBVS") [])
].

(** Lines 114-121. *)
Definition nb05_cell08 : cell := [
  SAssign [EName "thefit"] (ECall (EName "FitRecipe") []);
  SExpr (ECall (EAttr (EName "thefit") "clearFitHooks") []);
  SExpr (ECall (EAttr (EName "thefit") "addContribution") [EName "cpdf"])
].

(** Lines 130-148. *)
Definition nb05_cell09 : cell := [
  SExpr (ECall (EAttr (EName "thefit") "addVar") [EAttr (EName "cpdf") "scale"; EKeyword "value"
      (EInt 1)]);
  SExpr (ECall (EAttr (EName "thefit") "addVar") [EAttr (EName "cpdf") "qdamp"; EKeyword "value"
      (EFloat 0.03)]);
  SExpr (ECall (EAttr (EName "thefit") "addVar") [EAttr (EAttr (EName "cpdf") "nacl") "delta2";
      EKeyword "value" (EInt 5)]);
  SFor (EName "par") (EAttr (EName "sgpars") "latpars") [
    SExpr (ECall (EAttr (EName "thefit") "addVar") [EName "par"])
  ];
  SFor (EName "par") (EAttr (EName "sgpars") "adppars") [
    SExpr (ECall (EAttr (EName "thefit") "addVar") [EName "par"; EKeyword "value" (EFloat
        0.005)])
  ];
  SFor (EName "par") (EAttr (EName "sgpars") "xyzpars") [
    SExpr (ECall (EAttr (EName "thefit") "addVar") [EName "par"])
  ]
].

(** Lines 157-188. *)
Definition nb05_cell10 : cell := [
  SFunctionDef "namesandvalues" [] [] [
    SExpr (EStr "Format names and values of the active fit variables.");
    SReturn (Some (ECall (EAttr (EStr " ") "join") [EGenExp (EBinOp (EStr "%s=%g") OMod (EName
        "nv")) (EName "nv") (ECall (EName "zip") [EAttr (EName "thefit") "names"; EAttr (EName
        "thefit") "values"]) []]))
  ];
  SFunctionDef "chattyfit" [] [] [
    SExpr (ECall (EName "print") [EStr "Refine PDF using scipy's least-squares optimizer:"]);
    SExpr (ECall (EName "print") [EBinOp (EStr "  initial: ") OAdd (ECall (EName
        "namesandvalues") [])]);
    SAssign [EName "rv"] (ECall (EName "leastsq") [EAttr (EName "thefit") "residual"; EAttr
        (EName "thefit") "values"]);
    SExpr (ECall (EName "print") [EBinOp (EStr "  final: ") OAdd (ECall (EName "namesandvalues")
        [])]);
    SExpr (ECall (EName "print") [EStr ""]);
    SReturn (Some (EName "rv"))
  ];
  SFunctionDef "plotthefit" [("ax", None)] [] [
    SAssign [EName "r"] (EAttr (EAttr (EAttr (EName "thefit") "cpdf") "profile") "x");
    SAssign [EName "gobs"] (EAttr (EAttr (EAttr (EName "thefit") "cpdf") "profile") "y");
    SAssign [EName "gcalc"] (ECall (EAttr (EAttr (EName "thefit") "cpdf") "evaluate") []);
    SAssign [EName "baseline"] (EBinOp (EFloat 1.1) OMult (ECall (EAttr (EName "gobs") "min")
        []));
    SAssign [EName "gdiff"] (EBinOp (EName "gobs") OSub (EName "gcalc"));
    SExpr (ECall (EAttr (EName "ax") "plot") [EName "r"; EName "gobs"; EStr "bo"; EKeyword
        "label" (EStr "G(r) data"); EKeyword "markerfacecolor" (EStr "none"); EKeyword
        "markeredgecolor" (EStr "b")]);
    SExpr (ECall (EAttr (EName "ax") "plot") [EName "r"; EName "gcalc"; EStr "r-"; EKeyword
        "label" (EStr "G(r) fit")]);
    SExpr (ECall (EAttr (EName "ax") "plot") [EName "r"; EBinOp (EName "gdiff") OAdd (EName
        "baseline"); EStr "g-"; EKeyword "label" (EStr "G(r) diff")]);
    SExpr (ECall (EAttr (EName "ax") "plot") [EName "r"; EBinOp (EBinOp (EFloat 0.0) OMult
        (EName "r")) OAdd (EName "baseline"); EStr "k:"]);
    SExpr (ECall (EAttr (EName "ax") "set_xlim") [EInt 0; EInt 30]);
    SExpr (ECall (EAttr (EName "ax") "set_xlabel") [EStr "r (Å)"]);
    SExpr (ECall (EAttr (EName "ax") "set_ylabel") [EStr "G (Å$^{-2}$)"]);
    SExpr (ECall (EAttr (EName "ax") "legend") []);
    SReturn None
  ]
].

(** Lines 197-200. *)
Definition nb05_cell11 : cell := [
  SExpr (ECall (EName "chattyfit") []);
  SAssign [ETuple [EName "fig1"; EName "ax1"]] (ECall (EName "subplots") []);
  SExpr (ECall (EName "plotthefit") [EName "ax1"])
].

(** Lines 211-213. *)
Definition nb05_cell12 : cell := [
  SAssign [EName "results"] (ECall (EName "FitResults") [EName "thefit"]);
  SExpr (ECall (EName "print") [EName "results"])
].

(** Lines 231-235. *)
Definition nb05_cell13 : cell := [
  SExpr (ECall (EAttr (EName "thefit") "fix") [EStr "delta2"; EStr "Uiso_0"; EStr "Uiso_4"; EStr
      "qdamp"]);
  SAssign [EAttr (EName "thefit") "a"] (EInt 4);
  SExpr (ECall (EName "chattyfit") []);
  SAssign [ETuple [EName "fig2"; EName "ax2"]] (ECall (EName "subplots") []);
  SExpr (ECall (EName "plotthefit") [EName "ax2"])
].

(** Lines 251-255. *)
Definition nb05_cell14 : cell := [
  SAssign [EAttr (EName "rbv") "sig"] (EFloat 0.1);
  SExpr (ECall (EName "chattyfit") []);
  SAssign [ETuple [EName "fig3"; EName "ax3"]] (ECall (EName "subplots") []);
  SExpr (ECall (EName "plotthefit") [EName "ax3"])
].

(** Lines 273-278. *)
Definition nb05_cell15 : cell := [
  SImport [("numpy", None)];
  SAssign [EName "sigvalues"] (ECall (EAttr (EName "numpy") "logspace") [EUnaryOp USub (EInt 4);
      EInt 0]);
  SAssign [EName "avalues"] (EList []);
  SFor (EAttr (EName "rbv") "sig") (EName "sigvalues") [
    SExpr (ECall (EName "leastsq") [EAttr (EName "thefit") "residual"; EAttr (EName "thefit")
        "values"]);
    SExpr (ECall (EAttr (EName "avalues") "append") [EAttr (EAttr (EName "thefit") "a")
        "value"])
  ]
].

(** Lines 287-290. *)
Definition nb05_cell16 : cell := [
  SAssign [ETuple [EName "fig4"; EName "ax4"]] (ECall (EName "subplots") []);
  SExpr (ECall (EAttr (EName "ax4") "semilogx") [EName "sigvalues"; EName "avalues"]);
  SExpr (ECall (EAttr (EName "ax4") "set_xlabel") [EStr "sig parameter of the BVS restraint"]);
  SExpr (ECall (EAttr (EName "ax4") "set_ylabel") [EStr "cell parameter a (Å)"])
].

Definition nb05 : notebook :=
  {| nb_file := "05-Fit-NaCl-BVS-restraint.ipynb";
     nb_cells := [nb05_cell01; nb05_cell02; nb05_cell03; nb05_cell04; nb05_cell05; nb05_cell06;
         nb05_cell07; nb05_cell08; nb05_cell09; nb05_cell10; nb05_cell11;
         nb05_cell12; nb05_cell13; nb05_cell14; nb05_cell15; nb05_cell16] |}.

(** ** src/08-Orient-Naphthalene.ipynb, from line 1: Refine orientation of naphthalene molecule *)

(** Lines 28-41. *)
Definition nb08_cell01 : cell := [
  SImportFrom "__future__" [("print_function", None)];
  SMagic "matplotlib notebook";
  SImportFrom "matplotlib.pyplot" [("subplots", None)];
  SImport [("numpy", Some "np")];
  SImportFrom "scipy.optimize" [("leastsq", None)];
  SImportFrom "diffpy.srfit.pdf" [("PDFContribution", None)];
  SImportFrom "diffpy.srfit.fitbase" [("FitRecipe", None); ("FitResults", None); ("Calculator",
      None)]
].

(** Lines 57-60. *)
Definition nb08_cell02 : cell := [
  SAssign [EName "g_cif"] (EStr "naphthalene.cif");
  SAssign [EName "g_diff_baseline"] (EUnaryOp USub (EInt 1))
].

(** Lines 76-134. *)
Definition nb08_cell03 : cell := [
  SFunctionDef "myLoadCrystal" [("filename", None)] [] [
    SExpr (EStr "Load pyobjcryst.Crystal object from a CIF file.");
    SImportFrom "pyobjcryst.crystal" [("CreateCrystalFromCIF", None)];
    SWith (ECall (EName "open") [EName "filename"]) (Some (EName "fp")) [
      SAssign [EName "rv"] (ECall (EName "CreateCrystalFromCIF") [EName "fp"; EKeyword
          "oneScatteringPowerPerElement" (EBool true)])
    ];
    SReturn (Some (EName "rv"))
  ];
  SFunctionDef "getCrystalWithMolecule" [("ciffilename", None)] [] [
    SExpr (EStr
        "Load the CIF file and group all scatterers as one Molecule. This assumes the asymmetric unit is a single whole Molecule, i.e., there are no other molecules or independent atoms in the crystal and the molecule does not need to be symmetry-expanded.");
    SImportFrom "pyobjcryst.molecule" [("Molecule", None)];
    SAssign [EName "xyzmol"] (ECall (EAttr (EName "np") "array") [EList [EFloat 0.0; EFloat 0.0;
        EFloat 0.0]]);
    SAssign [EName "crst"] (ECall (EName "myLoadCrystal") [EName "ciffilename"]);
    SAssign [EName "mol"] (ECall (EName "Molecule") [EName "crst"; EStr "mol"]);
    SFor (EName "i") (ECall (EName "reversed") [ECall (EName "range") [ECall (EAttr (EName
        "crst") "GetNbScatterer") []]]) [
      SAssign [EName "a"] (ECall (EAttr (EName "crst") "GetScatterer") [EName "i"]);
      SAssign [EName "xyzm"] (EBinOp (ECall (EAttr (EName "np") "array") [EList [EAttr (EName
          "a") "X"; EAttr (EName "a") "Y"; EAttr (EName "a") "Z"]]) OSub (EName "xyzmol"));
      SAssign [ETuple [EName "xc"; EName "yc"; EName "zc"]] (ECall (EAttr (EName "crst")
          "FractionalToOrthonormalCoords") [EStarred (EName "xyzm")]);
      SExpr (ECall (EAttr (EName "mol") "AddAtom") [EName "xc"; EName "yc"; EName "zc"; ECall
          (EAttr (EName "a") "GetScatteringPower") []; ECall (EAttr (EName "a") "GetName") []]);
      SExpr (ECall (EAttr (EName "crst") "RemoveScatterer") [EName "a"])
    ];
    SExpr (ECall (EAttr (EName "crst") "AddScatterer") [EName "mol"]);
    SAssign [ETuple [EAttr (EName "mol") "X"; EAttr (EName "mol") "Y"; EAttr (EName "mol") "Z"]]
        (EName "xyzmol");
    SReturn (Some (EName "crst"))
  ];
  SClassDef "quatzero" [EName "Calculator"] [
    SExpr (EStr "Return the zero-th component of normalized quaternion.");
    SFunctionDef "__call__" [("self", None); ("q1", None); ("q2", None); ("q3", None)] [] [
      SAssign [EName "ssq"] (EBinOp (EBinOp (EBinOp (EName "q1") OPow (EInt 2)) OAdd (EBinOp
          (EName "q2") OPow (EInt 2))) OAdd (EBinOp (EName "q3") OPow (EInt 2)));
      SAssign [EName "q0"] (EIfExp (ECompare (EName "ssq") [(CLt, EInt 1)]) (ECall (EAttr (EName
          "np") "sqrt") [EBinOp (EFloat 1.0) OSub (EName "ssq")]) (EFloat 0.0));
      SReturn (Some (EName "q0"))
    ]
  ];
  SFunctionDef "plotrecipe" [("axis", None); ("rec", None); ("what", Some (EStr
      "obs, calc, diff"))] [] [
    SAssign [EName "choice"] (ECall (EName "set") [ECall (EAttr (ECall (EAttr (EName "what")
        "replace") [EStr ","; EStr " "]) "split") []]);
    SAssign [EName "r"] (EAttr (EAttr (EAttr (EName "rec") "pcnt") "r") "value");
    SAssign [EName "gobs"] (EAttr (EAttr (EAttr (EName "rec") "pcnt") "y") "value");
    SAssign [EName "gcalc"] (ECall (EAttr (EAttr (EName "rec") "pcnt") "evaluate") []);
    SAssign [EName "gdiff"] (EBinOp (EName "gobs") OSub (EName "gcalc"));
    SAssign [EName "yall"] (EList [ETuple [EStr "obs"; EName "gobs"]; ETuple [EStr "calc"; EName
        "gcalc"]; ETuple [EStr "diff"; EBinOp (EName "gdiff") OAdd (EName "g_diff_baseline")]]);
    SAssign [EName "pargs"] (ECall (EName "sum") [EListComp (ETuple [EName "r"; EName "y"])
        (ETuple [EName "n"; EName "y"]) (EName "yall") [ECompare (EName "n") [(CIn, EName
        "choice")]]; ETuple []]);
    SAssign [EName "rv"] (ECall (EAttr (EName "axis") "plot") [EStarred (EName "pargs")]);
    SIf (EBoolOp BAnd [ECompare (EStr "calc") [(CIn, EName "choice")]; ECompare (EStr "diff")
        [(CIn, EName "choice")]]) [
      SExpr (ECall (EAttr (ESubscript (EName "rv") (EUnaryOp USub (EInt 1))) "set_color") [ECall
          (EAttr (ESubscript (EName "rv") (EUnaryOp USub (EInt 2))) "get_color") []])
    ] [];
    SReturn (Some (EName "rv"))
  ]
].

(** Lines 150-166. *)
Definition nb08_cell04 : cell := [
  SAssign [EName "pcnt"] (ECall (EName "PDFContribution") [EStr "pcnt"]);
  SExpr (ECall (EAttr (EName "pcnt") "loadData") [EStr "naphthalene.gr"]);
  SAssign [EAttr (EName "pcnt") "qdamp"] (EFloat 0.06);
  SExpr (ECall (EAttr (EName "pcnt") "setCalculationRange") [EFloat 1.1; EInt 25]);
  SAssign [EName "crst"] (ECall (EName "getCrystalWithMolecule") [EName "g_cif"]);
  SAssign [EName "mol"] (ECall (EAttr (EName "crst") "GetScatterer") [EStr "mol"]);
  SExpr (ECall (EAttr (EName "pcnt") "addStructure") [EStr "mol"; EName "mol"; EKeyword
      "periodic" (EBool false)]);
  SAssign [EName "wcrst"] (ECall (EName "getCrystalWithMolecule") [EName "g_cif"]);
  SAssign [EName "wmol"] (ECall (EAttr (EName "wcrst") "GetScatterer") [EStr "mol"]);
  SExpr (ECall (EAttr (EName "pcnt") "addStructure") [EStr "wcrst"; EName "wcrst"; EKeyword
      "periodic" (EBool true)]);
  SExpr (ECall (EAttr (EName "pcnt") "addStructure") [EStr "wmol"; EName "wmol"; EKeyword
      "periodic" (EBool false)]);
  SExpr (ECall (EAttr (EName "pcnt") "setEquation") [EStr "scale * (mol + wcrst - wmol)"]);
  SExpr (ECall (EAttr (EAttr (EName "pcnt") "wcrst") "parallel") [EInt 4])
].

(** Lines 182-232. *)
Definition nb08_cell05 : cell := [
  SAssign [EName "ocfit"] (ECall (EName "FitRecipe") []);
  SExpr (ECall (EAttr (EName "ocfit") "clearFitHooks") []);
  SExpr (ECall (EAttr (EName "ocfit") "addContribution") [EName "pcnt"]);
  SExpr (ECall (EAttr (EName "ocfit") "addVar") [EAttr (EAttr (EName "ocfit") "pcnt") "scale";
      EKeyword "name" (EStr "scale"); EKeyword "value" (EFloat 0.1)]);
  SExpr (ECall (EAttr (EName "ocfit") "addVar") [EAttr (EAttr (EName "ocfit") "pcnt") "qdamp";
      EKeyword "name" (EStr "qdamp")]);
  SAssign [EName "pwcrst"] (EAttr (EAttr (EAttr (EName "ocfit") "pcnt") "wcrst") "phase");
  SExpr (ECall (EAttr (EName "ocfit") "addVar") [EAttr (EName "pwcrst") "a"]);
  SExpr (ECall (EAttr (EName "ocfit") "addVar") [EAttr (EName "pwcrst") "b"]);
  SExpr (ECall (EAttr (EName "ocfit") "addVar") [EAttr (EName "pwcrst") "c"]);
  SExpr (ECall (EAttr (EName "ocfit") "newVar") [EStr "beta"; EKeyword "value" (ECall (EAttr
      (EName "np") "degrees") [EAttr (EAttr (EName "pwcrst") "beta") "value"])]);
  SExpr (ECall (EAttr (EName "ocfit") "constrain") [EAttr (EName "pwcrst") "beta"; EStr
      "radians(beta)"]);
  SAssert (ECompare (EInt 2) [(CEq, ECall (EAttr (ECall (EAttr (EName "crst")
      "GetScatteringPowerRegistry") []) "GetNb") [])]) (Some (EStr
      "unexpected number of atom species"));
  SAssign [EName "pmol"] (EAttr (EAttr (EAttr (EName "ocfit") "pcnt") "mol") "phase");
  SExpr (ECall (EAttr (EName "ocfit") "addVar") [EAttr (EAttr (EName "pmol") "C1") "Biso";
      EKeyword "name" (EStr "bisoC"); EKeyword "value" (EFloat 1.0)]);
  SExpr (ECall (EAttr (EName "ocfit") "restrain") [EStr "bisoC"; EKeyword "lb" (EFloat 0.02);
      EKeyword "sig" (EFloat 1e-4)]);
  SExpr (ECall (EAttr (EName "ocfit") "addVar") [EAttr (EAttr (EName "pmol") "H1") "Biso";
      EKeyword "name" (EStr "bisoH"); EKeyword "value" (EInt 1); EKeyword "fixed" (EBool
      true)]);
  SExpr (ECall (EAttr (EName "ocfit") "addVar") [EAttr (EAttr (EAttr (EName "pwcrst") "mol")
      "C1") "Biso"; EKeyword "name" (EStr "binter"); EKeyword "value" (EInt 10)]);
  SExpr (ECall (EAttr (EName "ocfit") "constrain") [EAttr (EAttr (EAttr (EName "pwcrst") "mol")
      "H1") "Biso"; EStr "binter"]);
  SAssign [EName "pwmol"] (EAttr (EAttr (EAttr (EAttr (EName "ocfit") "pcnt") "wcrst") "phase")
      "mol");
  SExpr (ECall (EAttr (EName "ocfit") "addVar") [EAttr (EName "pwmol") "q1"; EKeyword "name"
      (EStr "wq1")]);
  SExpr (ECall (EAttr (EName "ocfit") "addVar") [EAttr (EName "pwmol") "q2"; EKeyword "name"
      (EStr "wq2")]);
  SExpr (ECall (EAttr (EName "ocfit") "addVar") [EAttr (EName "pwmol") "q3"; EKeyword "name"
      (EStr "wq3")]);
  SExpr (ECall (EAttr (EName "ocfit") "registerCalculator") [ECall (EName "quatzero") [EStr
      "fixq0"]; EKeyword "argnames" (EList [])]);
  SExpr (ECall (EAttr (EName "ocfit") "constrain") [EAttr (EName "pwmol") "q0"; EStr
      "fixq0(wq1, wq2, wq3)"])
].

(** Lines 248-252. *)
Definition nb08_cell06 : cell := [
  SExpr (ECall (EAttr (EName "ocfit") "fix") [EStr "all"]);
  SExpr (ECall (EAttr (EName "ocfit") "free") [EStr "scale"]);
  SExpr (ECall (EAttr (EName "ocfit") "scalarResidual") []);
  SExpr (ECall (EName "print") [EStr ("== INITIAL ==" ++ nl)%string]);
  SExpr (ECall (EName "print") [ECall (EName "FitResults") [EName "ocfit"]])
].

(** Lines 268-272. *)
Definition nb08_cell07 : cell := [
  SExpr (ECall (EAttr (EName "ocfit") "free") [EStr "a"; EStr "b"; EStr "c"]);
  SExpr (ECall (EAttr (EName "ocfit") "free") [EStr "bisoC"; EStr "binter"]);
  SExpr (ECall (EName "leastsq") [EAttr (EName "ocfit") "residual"; EAttr (EName "ocfit")
      "values"]);
  SExpr (ECall (EName "print") [EStr ("== INTERMEDIATE ==" ++ nl)%string]);
  SExpr (ECall (EName "print") [ECall (EName "FitResults") [EName "ocfit"]])
].

(** Lines 288-291. *)
Definition nb08_cell08 : cell := [
  SExpr (ECall (EAttr (EName "ocfit") "free") [EStr "wq1"; EStr "wq2"; EStr "wq3"]);
  SExpr (ECall (EName "leastsq") [EAttr (EName "ocfit") "residual"; EAttr (EName "ocfit")
      "values"]);
  SExpr (ECall (EName "print") [EStr ("== REFINED ==" ++ nl)%string]);
  SExpr (ECall (EName "print") [ECall (EName "FitResults") [EName "ocfit"]])
].

(** Lines 307-315. *)
Definition nb08_cell09 : cell := [
  SExpr (EBinOp (EAttr (EName "ocfit") "wq1") OLShift (EFloat 0.1));
  SExpr (ECall (EAttr (EName "ocfit") "fix") [EStr "a"; EStr "b"; EStr "c"; EStr "binter"; EStr
      "wq1"; EStr "wq2"; EStr "wq3"]);
  SExpr (ECall (EName "leastsq") [EAttr (EName "ocfit") "residual"; EAttr (EName "ocfit")
      "values"]);
  SExpr (ECall (EName "print") [EStr ("== MISORIENTED ==" ++ nl)%string]);
  SExpr (ECall (EName "print") [ECall (EName "FitResults") [EName "ocfit"]]);
  SAssign [ETuple [EName "fig1"; EName "ax1"]] (ECall (EName "subplots") []);
  SExpr (ECall (EName "plotrecipe") [EName "ax1"; EName "ocfit"]);
  SExpr (ECall (EAttr (EName "ax1") "set_title") [EStr "misoriented molecule"])
].

(** Lines 331-337. *)
Definition nb08_cell10 : cell := [
  SExpr (ECall (EAttr (EName "ocfit") "free") [EStr "wq1"; EStr "wq2"; EStr "wq3"]);
  SExpr (ECall (EName "leastsq") [EAttr (EName "ocfit") "residual"; EAttr (EName "ocfit")
      "values"]);
  SExpr (ECall (EName "print") [EStr ("== ORIENTED BACK ==" ++ nl)%string]);
  SExpr (ECall (EName "print") [ECall (EName "FitResults") [EName "ocfit"]]);
  SAssign [ETuple [EName "fig2"; EName "ax2"]] (ECall (EName "subplots") []);
  SExpr (ECall (EName "plotrecipe") [EName "ax2"; EName "ocfit"]);
  SExpr (ECall (EAttr (EName "ax2") "set_title") [EStr "molecule oriented back"])
].

Definition nb08 : notebook :=
  {| nb_file := "08-Orient-Naphthalene.ipynb";
     nb_cells := [nb08_cell01; nb08_cell02; nb08_cell03; nb08_cell04; nb08_cell05; nb08_cell06;
         nb08_cell07; nb08_cell08; nb08_cell09; nb08_cell10] |}.

Definition repository : list notebook := [nb02; nb03; nb03b; nb05; nb08].

#[local] Close Scope Q_scope.

(** * Traversals of the syntax *)

Definition opt_exists {A} (p : A -> bool) (o : option A) : bool :=
  match o with Some a => p a | None => false end.

Definition opt_list {A} (o : option A) : list A :=
  match o with Some a => [a] | None => [] end.

(** [expr_exists p e]: some subexpression of [e] ([e] included) satisfies [p]. *)
Fixpoint expr_exists (p : expr -> bool) (e : expr) : bool :=
  p e ||
  match e with
  | EInt _ | EFloat _ | EStr _ | EBool _ | ENone | EName _ => false
  | EAttr v _ | EKeyword _ v | EStarred v | EUnaryOp _ v => expr_exists p v
  | ECall f args => expr_exists p f || existsb (expr_exists p) args
  | EBinOp l _ r => expr_exists p l || expr_exists p r
  | EBoolOp _ vs | ETuple vs | EList vs => existsb (expr_exists p) vs
  | ECompare l rest => expr_exists p l || existsb (fun cr => expr_exists p (snd cr)) rest
  | EIfExp t b o => expr_exists p t || expr_exists p b || expr_exists p o
  | EListComp e t i ifs | EGenExp e t i ifs =>
      expr_exists p e || expr_exists p t || expr_exists p i || existsb (expr_exists p) ifs
  | ESubscript v i => expr_exists p v || expr_exists p i
  | ESlice l u s =>
      opt_exists (expr_exists p) l || opt_exists (expr_exists p) u || opt_exists (expr_exists p) s
  end.

(** The expressions a statement holds itself (those of nested statements are
    reached through [substmts]). *)
Definition stmt_exprs (s : stmt) : list expr :=
  match s with
  | SExpr v => [v]
  | SAssign ts v => ts ++ [v]
  | SAugAssign t _ v => [t; v]
  | SReturn o | SRaise o => opt_list o
  | SAssert t m => t :: opt_list m
  | SFor t i _ => [t; i]
  | SWhile t _ | SIf t _ _ => [t]
  | SWith c v _ => c :: opt_list v
  | SFunctionDef _ ps ds _ => flat_map (fun p => opt_list (snd p)) ps ++ ds
  | SClassDef _ bs _ => bs
  | SImport _ | SImportFrom _ _ | SMagic _ | STry _ _ _ => []
  end.

(** A statement with every statement nested in it, in source order. *)
Fixpoint substmts (s : stmt) : list stmt :=
  s ::
  match s with
  | SFor _ _ b | SWhile _ b | SWith _ _ b | SFunctionDef _ _ _ b | SClassDef _ _ b =>
      flat_map substmts b
  | SIf _ b o => flat_map substmts b ++ flat_map substmts o
  | STry b h f => flat_map substmts b ++ flat_map substmts h ++ flat_map substmts f
  | _ => []
  end.

Definition all_stmts (b : list stmt) : list stmt := flat_map substmts b.

Definition stmt_has_expr (p : expr -> bool) (s : stmt) : bool :=
  existsb (expr_exists p) (stmt_exprs s).

Definition body_has_expr (p : expr -> bool) (b : list stmt) : bool :=
  existsb (stmt_has_expr p) (all_stmts b).

Definition body_has_stmt (q : stmt -> bool) (b : list stmt) : bool :=
  existsb q (all_stmts b).

(** * The functions and classes the notebooks define *)

Record fundef := {
  fn_class : option string;
  fn_name : string;
  fn_params : list string;
  fn_body : list stmt
}.

Definition qualname (f : fundef) : string :=
  match fn_class f with
  | Some c => (c ++ "." ++ fn_name f)%string
  | None => fn_name f
  end.

Definition method_of (c : option string) (s : stmt) : list fundef :=
  match s with
  | SFunctionDef n ps _ b =>
      [{| fn_class := c; fn_name := n; fn_params := map fst ps; fn_body := b |}]
  | _ => []
  end.

Definition defs_of_stmt (s : stmt) : list fundef :=
  match s with
  | SFunctionDef _ _ _ _ => method_of None s
  | SClassDef c _ b => flat_map (method_of (Some c)) b
  | _ => []
  end.

Record classdef := { cl_name : string; cl_bases : list expr; cl_body : list stmt }.

Definition class_of_stmt (s : stmt) : list classdef :=
  match s with
  | SClassDef c bs b => [{| cl_name := c; cl_bases := bs; cl_body := b |}]
  | _ => []
  end.

(** The top-level statements of all cells of all notebooks. *)
Definition toplevel (nb : notebook) : list stmt := concat (nb_cells nb).

Definition repo_toplevel : list stmt := flat_map toplevel repository.

Definition repo_functions : list fundef := flat_map defs_of_stmt repo_toplevel.

Definition repo_classes : list classdef := flat_map class_of_stmt repo_toplevel.

Definition is_def (s : stmt) : bool :=
  match s with SFunctionDef _ _ _ _ => true | _ => false end.

(** * Analyses *)

Definition is_str (e : expr) : bool :=
  match e with EStr _ => true | _ => false end.

Definition is_number (e : expr) : bool :=
  match e with EInt _ | EFloat _ => true | _ => false end.

Definition arith_op (op : operator) : bool :=
  match op with OAdd | OSub | OMult | ODiv | OPow => true | OMod | OLShift => false end.

(** Arithmetic written in the notebook: a binary arithmetic operator whose
    operands are not string literals (this leaves out string concatenation and
    [%] formatting), or a sign applied to something other than a literal. *)
Definition is_arith (e : expr) : bool :=
  match e with
  | EBinOp l op r => arith_op op && negb (is_str l || is_str r)
  | EUnaryOp _ x => negb (is_number x)
  | _ => false
  end.

Definition is_augassign (s : stmt) : bool :=
  match s with SAugAssign _ _ _ => true | _ => false end.

(** A body computes when it holds arithmetic or an augmented assignment. *)
Definition computes (b : list stmt) : bool :=
  body_has_expr is_arith b || body_has_stmt is_augassign b.




Definition is_loop_stmt (s : stmt) : bool :=
  match s with SFor _ _ _ | SWhile _ _ => true | _ => false end.

(** ** Own data and own computation of a class *)






(** ** Pair contributions *)




(** ** Calculators registered with a fit recipe *)


(** ** Kinds of top-level statements *)

Inductive kind :=
| KSetup      (* import or IPython magic *)
| KAssign     (* assignment whose right-hand side holds no arithmetic *)
| KCall       (* call statement that holds no arithmetic *)
| KShow       (* a bare attribute, shown as the cell's value *)
| KSetValue   (* [variable << value], srfit's way to set a fit variable *)
| KArith      (* assignment or call that holds arithmetic *)
| KLoop       (* [for] loop over calls and assignments *)
| KAssert
| KDef        (* function or class definition *)
| KOther.

Definition kind_eqb (a b : kind) : bool :=
  match a, b with
  | KSetup, KSetup | KAssign, KAssign | KCall, KCall | KShow, KShow
  | KSetValue, KSetValue | KArith, KArith | KLoop, KLoop | KAssert, KAssert
  | KDef, KDef | KOther, KOther => true
  | _, _ => false
  end.

Definition simple_kind (s : stmt) : kind :=
  match s with
  | SImport _ | SImportFrom _ _ | SMagic _ => KSetup
  | SAssign _ v => if expr_exists is_arith v then KArith else KAssign
  | SExpr (ECall _ _ as v) => if expr_exists is_arith v then KArith else KCall
  | SExpr (EAttr _ _) => KShow
  | SExpr (EBinOp _ OLShift _) => KSetValue
  | SAssert _ _ => KAssert
  | _ => KOther
  end.

Definition stmt_kind (s : stmt) : kind :=
  match s with
  | SFor _ _ b =>
      if forallb (fun x => match simple_kind x with KAssign | KCall => true | _ => false end) b
      then KLoop else KOther
  | SFunctionDef _ _ _ _ | SClassDef _ _ _ => KDef
  | _ => simple_kind s
  end.

Definition count_kind (k : kind) (b : list stmt) : nat :=
  length (filter (fun s => kind_eqb (stmt_kind s) k) b).

(** Configuration in the narrow sense: setup, assignments and calls without
    arithmetic, and definitions that hold no arithmetic. *)
Definition config_stmt (s : stmt) : bool :=
  match s with
  | SFunctionDef _ _ _ b | SClassDef _ _ b => negb (computes b)
  | _ => match stmt_kind s with KSetup | KAssign | KCall => true | _ => false end
  end.

(** ** Optimizer calls and uses of the residual *)




Definition mem (x : string) (l : list string) : bool := existsb (String.eqb x) l.











(** ** The spec's sentences about what the repository does not contain

    Each is stated over the transcribed code, to be decided on it. *)


(** Every top-level statement is configuration. *)
Definition only_configuration : Prop :=
  forall s, In s repo_toplevel -> config_stmt s = true.










(** The two statements that set up parallel evaluation. *)
Definition create_parallel : stmt :=
  SAssign [EName "pdfc2"]
    (ECall (EName "createParallelCalculator")
       [ECall (EName "PDFCalculator") []; EKeyword "ncpu" (EInt 2);
        EKeyword "pmap" (EName "map")]).

Definition run_parallel : stmt :=
  SExpr (ECall (EAttr (EAttr (EName "pcnt") "wcrst") "parallel") [EInt 4]).

(** Every module the notebooks import. *)
Definition imported_modules : list string :=
  flat_map
    (fun s =>
       match s with
       | SImport ns => map fst ns
       | SImportFrom m _ => [m]
       | _ => []
       end)
    (all_stmts repo_toplevel).

Definition is_definition (s : stmt) : bool :=
  match s with SFunctionDef _ _ _ _ | SClassDef _ _ _ => true | _ => false end.


(** * Shallow embedding of the components the notebooks define

    Python floats are modelled by real numbers: rounding, infinities and
    overflow (where a Python float power raises [OverflowError]) are outside
    the model.  What else can go wrong in the modelled code is kept: a Python
    exception is an error result, and numpy's invalid value (the square root
    of a negative number) is [NaN]. *)

#[local] Open Scope R_scope.

Inductive exc := ZeroDivisionError | AttributeError | AssertionError.

Inductive result (A : Type) :=
| Ok (a : A)
| Raised (e : exc).

Arguments Ok {A} a.
Arguments Raised {A} e.

Definition bind {A B} (m : result A) (k : A -> result B) : result B :=
  match m with
  | Ok a => k a
  | Raised e => Raised e
  end.

Notation "x <- m ;; k" := (bind m (fun x => k))
  (at level 61, m at next level, right associativity).

(** [x < y] on floats. *)
Definition Rltb (x y : R) : bool := if Rlt_dec x y then true else false.

(** [x / y] on floats raises [ZeroDivisionError] when [y] is zero. *)
Definition py_div (x y : R) : result R :=
  if Req_dec_T y 0 then Raised ZeroDivisionError else Ok (x / y).

(** [x ** n] for a float [x] and an integer literal [n]: a zero base with a
    negative exponent raises [ZeroDivisionError]. *)
Definition py_pow (x : R) (n : Z) : result R :=
  if Req_dec_T x 0 then
    if (n <? 0)%Z then Raised ZeroDivisionError else Ok (powerRZ x n)
  else Ok (powerRZ x n).

(** [+x] on floats. *)
Definition py_pos (x : R) : R := x.

(** A numpy scalar: a number or the invalid value. *)
Inductive npfloat :=
| Num (r : R)
| NaN.

(** [np.sqrt] yields the invalid value (with a warning, and no exception) for
    a negative argument. *)
Definition np_sqrt (x : R) : npfloat :=
  if Rlt_dec x 0 then NaN else Num (sqrt x).

(** ** [RectangularProfile] (02-Function-Calculators.ipynb, lines 320-350) *)

Module RectangularProfile.

(** [inside = (-fwhm/2.0 < x < +fwhm/2.0); y = (1.0 / fwhm) if inside else 0.0] *)
Definition __call__ (x fwhm : R) : result R :=
  lo <- py_div (- fwhm) 2 ;;
  hi <- py_div (py_pos fwhm) 2 ;;
  let inside := Rltb lo x && Rltb x hi in
  if inside then py_div 1 fwhm else Ok 0.

Definition type : string := "rectangularprofile".

(** [return +0.5 * fwhm] *)
Definition xboundhi (fwhm : R) : R := py_pos 0.5 * fwhm.

(** [return -0.5 * fwhm] *)
Definition xboundlo (fwhm : R) : R := - (0.5) * fwhm.

End RectangularProfile.

(** ** [CarbonChain] and [convertCarbonChain] (lines 434-467)

    [convertCarbonChain] creates ONE [AdptAtom] object, then for each [z]
    assigns [a.zc = z] and calls [adpt.append(a)].  Whether the adapter ends
    up with [n] different atoms or [n] views of the last one depends on what
    [append] keeps, so the model has a store of atom objects and an adapter
    whose entries are either copies or references. *)

Module CarbonChain.

Record t := { Uiso : R; z : list R }.

(** [self.Uiso = 0.004; self.z = []] *)
Definition __init__ : t := {| Uiso := 0.004; z := [] |}.

End CarbonChain.

(** The attributes of an adapter atom that the converter touches, and the
    other two Cartesian coordinates. *)
Record AdptAtom := {
  atomtype : string;
  xc : R;
  yc : R;
  zc : R;
  uc11 : R;
  uc22 : R;
  uc33 : R
}.

(** Modelled from the spec: the toolkit's [Atom] (imported as [AdptAtom]) is
    not part of the sources; a new atom has an empty type, sits at the origin
    and has zero displacement parameters. *)
Definition AdptAtom_new : AdptAtom :=
  {| atomtype := ""; xc := 0; yc := 0; zc := 0; uc11 := 0; uc22 := 0; uc33 := 0 |}.

Definition set_atomtype (s : string) (a : AdptAtom) : AdptAtom :=
  {| atomtype := s; xc := xc a; yc := yc a; zc := zc a;
     uc11 := uc11 a; uc22 := uc22 a; uc33 := uc33 a |}.

Definition set_zc (v : R) (a : AdptAtom) : AdptAtom :=
  {| atomtype := atomtype a; xc := xc a; yc := yc a; zc := v;
     uc11 := uc11 a; uc22 := uc22 a; uc33 := uc33 a |}.

Definition set_uc11 (v : R) (a : AdptAtom) : AdptAtom :=
  {| atomtype := atomtype a; xc := xc a; yc := yc a; zc := zc a;
     uc11 := v; uc22 := uc22 a; uc33 := uc33 a |}.

Definition set_uc22 (v : R) (a : AdptAtom) : AdptAtom :=
  {| atomtype := atomtype a; xc := xc a; yc := yc a; zc := zc a;
     uc11 := uc11 a; uc22 := v; uc33 := uc33 a |}.

Definition set_uc33 (v : R) (a : AdptAtom) : AdptAtom :=
  {| atomtype := atomtype a; xc := xc a; yc := yc a; zc := zc a;
     uc11 := uc11 a; uc22 := uc22 a; uc33 := v |}.

(** The store of Python atom objects: a reference is an index. *)
Definition ref := nat.

Definition heap := list AdptAtom.

Definition alloc (h : heap) (a : AdptAtom) : ref * heap := (length h, (h ++ [a])%list).

Definition load (h : heap) (r : ref) : AdptAtom := nth r h AdptAtom_new.

Fixpoint update (h : heap) (r : ref) (f : AdptAtom -> AdptAtom) : heap :=
  match h, r with
  | [], _ => []
  | a :: h', O => f a :: h'
  | a :: h', S r' => a :: update h' r' f
  end.

(** What [append] keeps of its argument. *)
Inductive append_mode :=
| ByValue      (* a copy of the atom as it is at the call *)
| ByReference. (* the object itself, as a Python list would *)

Inductive slot :=
| Copy (a : AdptAtom)
| Alias (r : ref).

Definition AtomicStructureAdapter := list slot.

Definition append (m : append_mode) (h : heap) (adpt : AtomicStructureAdapter) (r : ref)
  : AtomicStructureAdapter :=
  (adpt ++ [match m with ByValue => Copy (load h r) | ByReference => Alias r end])%list.

(** The atoms an adapter shows in a given store. *)
Definition atoms (h : heap) (adpt : AtomicStructureAdapter) : list AdptAtom :=
  map (fun s => match s with Copy a => a | Alias r => load h r end) adpt.

(** One round of [for z in thechain.z: a.zc = z; adpt.append(a)]. *)
Definition convert_step (m : append_mode) (a : ref)
  (st : heap * AtomicStructureAdapter) (z : R) : heap * AtomicStructureAdapter :=
  let h := update (fst st) a (set_zc z) in
  (h, append m h (snd st) a).

(** [convertCarbonChain(thechain)], run in store [h]; the chained assignment
    [a.uc11 = a.uc22 = a.uc33 = thechain.Uiso] evaluates the right-hand side
    once and assigns the targets from left to right. *)
Definition convertCarbonChain (m : append_mode) (thechain : CarbonChain.t) (h : heap)
  : heap * AtomicStructureAdapter :=
  let adpt : AtomicStructureAdapter := [] in
  let (a, h) := alloc h AdptAtom_new in
  let h := update h a (set_atomtype "C") in
  let u := CarbonChain.Uiso thechain in
  let h := update h a (set_uc11 u) in
  let h := update h a (set_uc22 u) in
  let h := update h a (set_uc33 u) in
  fold_left (convert_step m a) (CarbonChain.z thechain) (h, adpt).


(** The atoms of the adapter that [convertCarbonChain] returns. *)
Definition converted_atoms (m : append_mode) (thechain : CarbonChain.t) (h : heap)
  : list AdptAtom :=
  let (h', adpt) := convertCarbonChain m thechain h in atoms h' adpt.

(** ** [LennardJonesCalculator] (lines 551-584) *)

Module LennardJonesCalculator.

(** The calculator's own data: the class attributes [epsilon] and [sigma]
    (which an instance may override, as [ljcalc.epsilon = 2] does), [rmax],
    and the running total, which does not exist before [_resetValue]. *)
Record t := {
  epsilon : R;
  sigma : R;
  rmax : R;
  _vljtotal : option R
}.

Definition set_vljtotal (v : R) (self : t) : t :=
  {| epsilon := epsilon self; sigma := sigma self; rmax := rmax self;
     _vljtotal := Some v |}.


(** [epsilon = 1.0; sigma = 1.0; PairQuantity.__init__(self); self.rmax = 10] *)
Definition __init__ : t :=
  {| epsilon := 1.0; sigma := 1.0; rmax := 10; _vljtotal := None |}.

(** [self._vljtotal = 0.0] *)
Definition _resetValue (self : t) : t := set_vljtotal 0.0 self.

(** [nmrij = bond.distance() / self.sigma;
     vij = 4 * self.epsilon * (nmrij ** -12 - nmrij ** -6);
     self._vljtotal += 0.5 * vij * sumscale]
    where [distance] is the value of [bond.distance()]. *)
Definition _addPairContribution (self : t) (distance sumscale : R) : result t :=
  nmrij <- py_div distance (sigma self) ;;
  p12 <- py_pow nmrij (-12) ;;
  p6 <- py_pow nmrij (-6) ;;
  let vij := 4 * epsilon self * (p12 - p6) in
  match _vljtotal self with
  | None => Raised AttributeError
  | Some total => Ok (set_vljtotal (total + 0.5 * vij * sumscale) self)
  end.

(** Modelled from the spec: [PairQuantity.eval] is the toolkit's and is not
    part of the sources.  Following the docstrings of the two hooks it calls
    ("Clear old results at the beginning of evaluation", "Process
    contribution from one atom pair"), it resets the value and then hands
    every atom pair it generates, with its multiplicity, to
    [_addPairContribution].  The pairs (distance, sumscale) are the toolkit's
    and are an input here. *)
Fixpoint add_pairs (self : t) (pairs : list (R * R)) : result t :=
  match pairs with
  | [] => Ok self
  | (d, k) :: rest => self' <- _addPairContribution self d k ;; add_pairs self' rest
  end.

Definition eval (self : t) (pairs : list (R * R)) : result t :=
  add_pairs (_resetValue self) pairs.

(** [self.eval(structure); return self._vljtotal] *)
Definition __call__ (self : t) (pairs : list (R * R)) : result (t * R) :=
  self' <- eval self pairs ;;
  match _vljtotal self' with
  | None => Raised AttributeError
  | Some v => Ok (self', v)
  end.

(** The Lennard-Jones energy of one pair at distance [d]. *)
Definition vlj (eps sig d : R) : R :=
  4 * eps * (powerRZ (d / sig) (-12) - powerRZ (d / sig) (-6)).

Definition vlj_sum (eps sig : R) (pairs : list (R * R)) : R :=
  fold_left (fun acc p => acc + 0.5 * vlj eps sig (fst p) * snd p) pairs 0.0.

End LennardJonesCalculator.

(** ** [quatzero] (08-Orient-Naphthalene.ipynb, lines 109-116) *)

Module quatzero.

(** [ssq = q1**2 + q2**2 + q3**2; q0 = np.sqrt(1.0 - ssq) if ssq < 1 else 0.0] *)
Definition __call__ (q1 q2 q3 : R) : npfloat :=
  let ssq := q1 ^ 2 + q2 ^ 2 + q3 ^ 2 in
  if Rltb ssq 1 then np_sqrt (1.0 - ssq) else Num 0.0.

End quatzero.


(** ** [namesandvalues] and [chattyfit] (05-Fit-NaCl-BVS-restraint.ipynb, lines 160-170)

    The recipe and the optimizer are the toolkit's and scipy's: they are
    parameters.  A recipe is a state; [residual] sets the variables and returns
    the residual vector (and the new state); the optimizer is handed the
    residual function and the start values and returns its result. *)

Section Fit.

Variable recipe : Type.
Variable names : recipe -> list string.
Variable values : recipe -> list R.
Variable residual : recipe -> list R -> recipe * list R.
Variable optresult : Type.
Variable leastsq :
  (recipe -> list R -> recipe * list R) -> list R -> recipe -> recipe * optresult.
(** ["%g" % v] *)
Variable format_g : R -> string.



End Fit.

(** * Evaluating the numeric fragment of the syntax

    The bodies of [RectangularProfile.__call__], [xboundhi], [xboundlo],
    [quatzero.__call__] and [LennardJonesCalculator._addPairContribution] use
    only numbers, names, attributes of objects, arithmetic, chained
    comparisons, conditional expressions, [np.sqrt], assignment, augmented
    assignment to an attribute and [return].  This evaluator runs that
    fragment, so that the transcribed bodies can be compared with their
    shallow embedding.  [None] marks syntax outside the fragment. *)

Inductive value :=
| VNum (r : R)
| VBool (b : bool)
| VNaN
| VNone.

(** Variables by name; the attribute [a] of object [o] under ["o.a"], and
    the result of the argument-free method call [o.m()] under ["o.m()"]. *)
Definition env := list (string * value).

Fixpoint lookup (rho : env) (x : string) : option value :=
  match rho with
  | [] => None
  | (y, v) :: rest => if String.eqb x y then Some v else lookup rest x
  end.

Definition assign (rho : env) (x : string) (v : value) : env := (x, v) :: rho.

Definition of_npfloat (x : npfloat) : value :=
  match x with Num r => VNum r | NaN => VNaN end.

(** An integer exponent as written: [n] or [-n]. *)
Definition int_literal (e : expr) : option Z :=
  match e with
  | EInt n => Some n
  | EUnaryOp USub (EInt n) => Some (- n)%Z
  | _ => None
  end.

Definition lift (m : result R) : option (result value) :=
  match m with
  | Ok r => Some (Ok (VNum r))
  | Raised e => Some (Raised e)
  end.

Definition arith (op : operator) (x y : R) : option (result value) :=
  match op with
  | OAdd => Some (Ok (VNum (x + y)))
  | OSub => Some (Ok (VNum (x - y)))
  | OMult => Some (Ok (VNum (x * y)))
  | ODiv => lift (py_div x y)
  | _ => None
  end.

Fixpoint eval_expr (rho : env) (e : expr) : option (result value) :=
  match e with
  | EInt n => Some (Ok (VNum (IZR n)))
  | EFloat q => Some (Ok (VNum (Q2R q)))
  | EName x => option_map Ok (lookup rho x)
  | EAttr (EName o) a =>
      match lookup rho (o ++ "." ++ a)%string with
      | Some v => Some (Ok v)
      | None => Some (Raised AttributeError)
      end
  | ECall (EAttr (EName "np") "sqrt") [a] =>
      match eval_expr rho a with
      | Some (Ok (VNum x)) => Some (Ok (of_npfloat (np_sqrt x)))
      | Some (Raised ex) => Some (Raised ex)
      | _ => None
      end
  | ECall (EAttr (EName o) m) [] => option_map Ok (lookup rho (o ++ "." ++ m ++ "()")%string)
  | EUnaryOp op a =>
      match eval_expr rho a with
      | Some (Ok (VNum x)) =>
          Some (Ok (VNum (match op with USub => - x | UAdd => py_pos x end)))
      | Some (Raised ex) => Some (Raised ex)
      | _ => None
      end
  | EBinOp l OPow r =>
      match eval_expr rho l, int_literal r with
      | Some (Ok (VNum x)), Some n => lift (py_pow x n)
      | Some (Raised ex), _ => Some (Raised ex)
      | _, _ => None
      end
  | EBinOp l op r =>
      match eval_expr rho l with
      | Some (Ok (VNum x)) =>
          match eval_expr rho r with
          | Some (Ok (VNum y)) => arith op x y
          | Some (Raised ex) => Some (Raised ex)
          | _ => None
          end
      | Some (Raised ex) => Some (Raised ex)
      | _ => None
      end
  | ECompare l [(CLt, a)] =>
      match eval_expr rho l with
      | Some (Ok (VNum x)) =>
          match eval_expr rho a with
          | Some (Ok (VNum y)) => Some (Ok (VBool (Rltb x y)))
          | Some (Raised ex) => Some (Raised ex)
          | _ => None
          end
      | Some (Raised ex) => Some (Raised ex)
      | _ => None
      end
  | ECompare l [(CLt, a); (CLt, b)] =>
      (* [l < a < b] is [l < a and a < b]: [b] is evaluated only when [l < a] *)
      match eval_expr rho l with
      | Some (Ok (VNum x)) =>
          match eval_expr rho a with
          | Some (Ok (VNum y)) =>
              if Rltb x y then
                match eval_expr rho b with
                | Some (Ok (VNum z)) => Some (Ok (VBool (Rltb y z)))
                | Some (Raised ex) => Some (Raised ex)
                | _ => None
                end
              else Some (Ok (VBool false))
          | Some (Raised ex) => Some (Raised ex)
          | _ => None
          end
      | Some (Raised ex) => Some (Raised ex)
      | _ => None
      end
  | EIfExp t b o =>
      match eval_expr rho t with
      | Some (Ok (VBool c)) => if c then eval_expr rho b else eval_expr rho o
      | Some (Raised ex) => Some (Raised ex)
      | _ => None
      end
  | _ => None
  end.

(** Running a body: the final environment and the value returned ([VNone]
    when the body ends or returns without a value). *)
Fixpoint exec (rho : env) (b : list stmt) : option (result (env * value)) :=
  match b with
  | [] => Some (Ok (rho, VNone))
  | s :: rest =>
      match s with
      | SExpr (EStr _) => exec rho rest
      | SAssign [EName x] e =>
          match eval_expr rho e with
          | Some (Ok v) => exec (assign rho x v) rest
          | Some (Raised ex) => Some (Raised ex)
          | None => None
          end
      | SAugAssign (EAttr (EName o) a) OAdd e =>
          match lookup rho (o ++ "." ++ a)%string with
          | Some (VNum old) =>
              match eval_expr rho e with
              | Some (Ok (VNum x)) => exec (assign rho (o ++ "." ++ a)%string (VNum (old + x))) rest
              | Some (Raised ex) => Some (Raised ex)
              | _ => None
              end
          | Some _ => None
          | None => Some (Raised AttributeError)
          end
      | SReturn None => Some (Ok (rho, VNone))
      | SReturn (Some e) =>
          match eval_expr rho e with
          | Some (Ok v) => Some (Ok (rho, v))
          | Some (Raised ex) => Some (Raised ex)
          | None => None
          end
      | _ => None
      end
  end.

(** The body of a function the notebooks define, by qualified name. *)
Definition body_of (name : string) : list stmt :=
  match find (fun f => String.eqb (qualname f) name) repo_functions with
  | Some f => fn_body f
  | None => []
  end.

(** The value a body returns. *)
Definition returns (rho : env) (b : list stmt) : option (result value) :=
  match exec rho b with
  | Some (Ok (_, v)) => Some (Ok v)
  | Some (Raised ex) => Some (Raised ex)
  | None => None
  end.

(** The value of a variable or attribute after a body has run. *)
Definition leaves (rho : env) (b : list stmt) (x : string) : option (result (option value)) :=
  match exec rho b with
  | Some (Ok (rho', _)) => Some (Ok (lookup rho' x))
  | Some (Raised ex) => Some (Raised ex)
  | None => None
  end.


Ltac load_body name :=
  let b := eval vm_compute in (body_of name) in
  change (body_of name) with b.

Ltac run_body :=
  unfold returns, leaves;
  cbn [exec eval_expr lookup assign String.eqb Ascii.eqb Bool.eqb option_map
       int_literal lift arith String.append Z.opp].

From Stdlib Require Import Permutation.

(** * More of the notebooks' own code

    The functions below are the rest of what the notebooks define and run
    themselves: the plotting helpers [plotrecipe] and [plotthefit], the loader
    [getCrystalWithMolecule], the scan over restraint weights, and the
    profile read as a function of the position. *)

(** Errors of list indexing and of numpy and matplotlib on mismatched or
    empty arrays. *)
Inductive pyerror := IndexError | ValueError.

Inductive outcome (A : Type) :=
| Done (a : A)
| Fails (e : pyerror).

Arguments Done {A} a.
Arguments Fails {A} e.

Definition andthen {A B} (m : outcome A) (k : A -> outcome B) : outcome B :=
  match m with
  | Done a => k a
  | Fails e => Fails e
  end.

Notation "x <-- m ;; k" := (andthen m (fun x => k))
  (at level 61, m at next level, right associativity).

(** [l[-k]] for [k >= 1]: the [k]-th element from the end. *)
Definition index_from_end {A} (l : list A) (k : nat) : outcome A :=
  match nth_error (rev l) (k - 1) with
  | Some a => Done a
  | None => Fails IndexError
  end.

(** ** The profile as a function of the position *)



(** ** [plotrecipe] (08-Orient-Naphthalene.ipynb, lines 121-134) *)

(** The whitespace of [str.split()]: blank, tab, newline, vertical tab, form
    feed and carriage return. *)
Definition is_space (c : ascii) : bool :=
  let n := nat_of_ascii c in
  Nat.eqb n 32 || (Nat.leb 9 n && Nat.leb n 13).

Definition is_comma (c : ascii) : bool := Ascii.eqb c ","%char.

(** [s.replace(',', ' ')] *)
Fixpoint replace_commas (s : string) : string :=
  match s with
  | EmptyString => EmptyString
  | String c rest =>
      String (if is_comma c then " "%char else c) (replace_commas rest)
  end.

(** [s.split()]: the maximal runs of non-whitespace, in order; [cur] is the
    word read so far. *)
Fixpoint split_words (cur : string) (s : string) : list string :=
  match s with
  | EmptyString =>
      match cur with
      | EmptyString => []
      | _ => [cur]
      end
  | String c rest =>
      if is_space c then
        match cur with
        | EmptyString => split_words EmptyString rest
        | _ => cur :: split_words EmptyString rest
        end
      else split_words (cur ++ String c EmptyString)%string rest
  end.

Definition py_split (s : string) : list string := split_words EmptyString s.

(** [set(what.replace(',', ' ').split())], as the list of its words: the
    function only asks whether a word is in the set. *)
Definition parse_choice (what : string) : list string :=
  py_split (replace_commas what).

(** A word as [split] returns it: not empty, with no whitespace; after
    [replace] it has no comma either. *)
Definition plain_char (c : ascii) : bool := negb (is_space c || is_comma c).

Definition plain_word (w : string) : bool :=
  negb (String.eqb w EmptyString) && forallb plain_char (list_ascii_of_string w).

(** [g_diff_baseline = -1] (line 60). *)
Definition g_diff_baseline : R := -1.

Section Plot.

(** Arrays and their arithmetic are numpy's, colours and lines matplotlib's. *)
Variable array : Type.
Variable np_sub : array -> array -> array.
Variable np_add_scalar : array -> R -> array.
Variable color : Type.
(** The colour the axis gives to the [k]-th line of one [plot] call. *)
Variable cycle : nat -> color.

Record line := { xdata : array; ydata : array; line_color : color }.

(** Modelled from the spec: matplotlib's [axis.plot(x1, y1, x2, y2, ...)] is
    not part of the sources; it returns one line per (x, y) pair, in order,
    each with the next colour of the axis. *)
Fixpoint axis_plot (k : nat) (pargs : list array) : list line :=
  match pargs with
  | x :: y :: rest =>
      {| xdata := x; ydata := y; line_color := cycle k |} :: axis_plot (S k) rest
  | _ => []
  end.

Definition set_color (c : color) (l : line) : line :=
  {| xdata := xdata l; ydata := ydata l; line_color := c |}.

(** [rv[-1].set_color(c)]: the last line of [rv] gets colour [c]. *)
Definition recolor_last (rv : list line) (c : color) : list line :=
  match rev rv with
  | [] => rv
  | l :: before => rev (set_color c l :: before)
  end.

(** The curves by name, in the order of [yall]. *)
Definition yall (gobs gcalc : array) : list (string * array) :=
  let gdiff := np_sub gobs gcalc in
  [("obs", gobs); ("calc", gcalc); ("diff", np_add_scalar gdiff g_diff_baseline)].

(** [sum([(r, y) for n, y in yall if n in choice], ())] *)
Definition plot_args (r : array) (curves : list (string * array)) (choice : list string)
  : list array :=
  flat_map (fun ny => if mem (fst ny) choice then [r; snd ny] else []) curves.

(** [plotrecipe(axis, rec, what)], where [r], [gobs] and [gcalc] are
    [rec.pcnt.r.value], [rec.pcnt.y.value] and [rec.pcnt.evaluate()]; the
    result is the list of lines [rv]. *)
Definition plotrecipe (r gobs gcalc : array) (what : string) : outcome (list line) :=
  let choice := parse_choice what in
  let pargs := plot_args r (yall gobs gcalc) choice in
  let rv := axis_plot 0 pargs in
  if mem "calc" choice && mem "diff" choice then
    last <-- index_from_end rv 1 ;;
    prev <-- index_from_end rv 2 ;;
    Done (recolor_last rv (line_color prev))
  else Done rv.

End Plot.

Arguments xdata {array color} l.
Arguments ydata {array color} l.
Arguments line_color {array color} l.

(** ** [plotthefit] (05-Fit-NaCl-BVS-restraint.ipynb, lines 172-188) *)

(** [a.min()]: numpy raises [ValueError] for an empty array. *)
Definition np_min (a : list R) : outcome R :=
  match a with
  | [] => Fails ValueError
  | x :: rest => Done (fold_left Rmin rest x)
  end.

(** An elementwise operation on two one-dimensional arrays, with numpy's
    broadcasting: equal lengths, or one of them of length 1. *)
Definition np_binop (f : R -> R -> R) (a b : list R) : outcome (list R) :=
  if Nat.eqb (length a) (length b) then Done (map (fun xy => f (fst xy) (snd xy)) (combine a b))
  else if Nat.eqb (length b) 1 then Done (map (fun x => f x (hd 0 b)) a)
  else if Nat.eqb (length a) 1 then Done (map (fun y => f (hd 0 a) y) b)
  else Fails ValueError.

(** Modelled from the spec: matplotlib's [ax.plot(x, y, ...)] is not part of
    the sources; it raises [ValueError] when [x] and [y] differ in length and
    draws the curve otherwise. *)
Definition ax_plot (x y : list R) : outcome (list R * list R) :=
  if Nat.eqb (length x) (length y) then Done (x, y) else Fails ValueError.

(** [baseline = 1.1 * gobs.min()] *)
Definition fit_baseline (gobs : list R) : outcome R :=
  m <-- np_min gobs ;; Done (1.1 * m).

(** [plotthefit(ax)], where [r], [gobs] and [gcalc] are the profile's [x] and
    [y] and [thefit.cpdf.evaluate()]; the four curves drawn, in order: data,
    fit, difference and the zero line of the difference. *)
Definition plotthefit (r gobs gcalc : list R) : outcome (list (list R * list R)) :=
  baseline <-- fit_baseline gobs ;;
  gdiff <-- np_binop Rminus gobs gcalc ;;
  c1 <-- ax_plot r gobs ;;
  c2 <-- ax_plot r gcalc ;;
  c3 <-- ax_plot r (map (fun d => d + baseline) gdiff) ;;
  c4 <-- ax_plot r (map (fun x => 0.0 * x + baseline) r) ;;
  Done [c1; c2; c3; c4].

(** ** [getCrystalWithMolecule] (08-Orient-Naphthalene.ipynb, lines 84-106) *)

(** An atom of the crystal as loaded from the CIF file.  [sc_id] is the
    identity of the Python object: [RemoveScatterer(a)] removes that object. *)
Record Scatterer := {
  sc_id : nat;
  sc_name : string;
  sc_X : R;
  sc_Y : R;
  sc_Z : R;
  sc_power : string
}.

(** An atom of the molecule, as [AddAtom(x, y, z, power, name)] makes it. *)
Record MolAtom := {
  ma_x : R;
  ma_y : R;
  ma_z : R;
  ma_power : string;
  ma_name : string
}.

Record Molecule := {
  mol_atoms : list MolAtom;
  mol_X : R;
  mol_Y : R;
  mol_Z : R
}.

(** The crystal that is returned: the atoms still registered on their own,
    and the molecule added at the end. *)
Record Crystal := {
  crst_atoms : list Scatterer;
  crst_mol : Molecule
}.

(** Modelled from the spec: pyobjcryst's [Crystal.RemoveScatterer] is not part
    of the sources; it takes the given object out of the registry. *)
Fixpoint RemoveScatterer (a : Scatterer) (l : list Scatterer) : list Scatterer :=
  match l with
  | [] => []
  | b :: rest =>
      if Nat.eqb (sc_id b) (sc_id a) then rest else b :: RemoveScatterer a rest
  end.

(** Modelled from the spec: pyobjcryst's [Crystal.GetScatterer(i)] is not part
    of the sources; it returns the [i]-th registered scatterer and raises
    [IndexError] when there is none. *)
Definition GetScatterer (l : list Scatterer) (i : nat) : outcome Scatterer :=
  match nth_error l i with
  | Some a => Done a
  | None => Fails IndexError
  end.

Section Loader.

(** [crst.FractionalToOrthonormalCoords] is the library's. *)
Variable FractionalToOrthonormalCoords : R -> R -> R -> R * R * R.

(** One round of the loop, for index [i]: the atom is read, its coordinates
    (minus [xyzmol], which is zero) are converted, it is added to the
    molecule and removed from the crystal. *)
Definition move_scatterer (st : list Scatterer * list MolAtom) (i : nat)
  : outcome (list Scatterer * list MolAtom) :=
  a <-- GetScatterer (fst st) i ;;
  let '(xc, yc, zc) :=
    FractionalToOrthonormalCoords (sc_X a - 0.0) (sc_Y a - 0.0) (sc_Z a - 0.0) in
  let atom := {| ma_x := xc; ma_y := yc; ma_z := zc;
                 ma_power := sc_power a; ma_name := sc_name a |} in
  Done (RemoveScatterer a (fst st), snd st ++ [atom]).

Fixpoint for_indices (indices : list nat) (st : list Scatterer * list MolAtom)
  : outcome (list Scatterer * list MolAtom) :=
  match indices with
  | [] => Done st
  | i :: rest => st' <-- move_scatterer st i ;; for_indices rest st'
  end.

(** The loop over the given indices, then [crst.AddScatterer(mol)] and
    [mol.X, mol.Y, mol.Z = xyzmol]. *)
Definition group_scatterers (indices : list nat) (atoms : list Scatterer)
  : outcome Crystal :=
  st <-- for_indices indices (atoms, []) ;;
  Done {| crst_atoms := fst st;
          crst_mol := {| mol_atoms := snd st; mol_X := 0.0; mol_Y := 0.0; mol_Z := 0.0 |} |}.

(** [getCrystalWithMolecule], from the atoms [myLoadCrystal] returned: the
    indices are [reversed(range(crst.GetNbScatterer()))], fixed before the
    loop starts. *)
Definition getCrystalWithMolecule (atoms : list Scatterer) : outcome Crystal :=
  group_scatterers (rev (seq 0 (length atoms))) atoms.

(** The atom of the molecule that an atom of the crystal becomes. *)
Definition as_mol_atom (a : Scatterer) : MolAtom :=
  let '(xc, yc, zc) := FractionalToOrthonormalCoords (sc_X a) (sc_Y a) (sc_Z a) in
  {| ma_x := xc; ma_y := yc; ma_z := zc; ma_power := sc_power a; ma_name := sc_name a |}.

End Loader.

(** ** The scan over restraint weights (05-Fit-NaCl-BVS-restraint.ipynb, lines 273-278) *)

Section Scan.

Variable recipe : Type.
(** [rbv.sig = s]: the restraint is part of the recipe. *)
Variable set_sig : R -> recipe -> recipe.
(** What [leastsq(thefit.residual, thefit.values)] does to the recipe. *)
Variable refine : recipe -> recipe.
(** [thefit.a.value] *)
Variable a_value : recipe -> R.



End Scan.

(** ** [print] under Python 2

    The notebooks run on a Python 2 kernel.  There [print(a, b)] prints a
    tuple unless [print_function] is imported from [__future__]; [print(a)]
    prints [a] either way. *)







(** * Properties of the shallow embedding *)

(** ** Python arithmetic *)

Lemma Rltb_true (x y : R) : Rltb x y = true <-> x < y.
Proof.
  unfold Rltb. destruct (Rlt_dec x y) as [H | H]; split; intro K.
  - exact H.
  - reflexivity.
  - discriminate K.
  - contradiction.
Qed.

Lemma Rltb_false (x y : R) : Rltb x y = false <-> ~ x < y.
Proof.
  unfold Rltb. destruct (Rlt_dec x y) as [H | H]; split; intro K.
  - discriminate K.
  - contradiction.
  - exact H.
  - reflexivity.
Qed.

Lemma py_div_ok (x y : R) : y <> 0 -> py_div x y = Ok (x / y).
Proof.
  intro H. unfold py_div. destruct (Req_dec_T y 0) as [E | _].
  - contradiction.
  - reflexivity.
Qed.


Lemma py_pow_ok (x : R) (n : Z) : x <> 0 -> py_pow x n = Ok (powerRZ x n).
Proof.
  intro H. unfold py_pow. destruct (Req_dec_T x 0) as [E | _].
  - contradiction.
  - reflexivity.
Qed.



Lemma np_sqrt_negative (x : R) : x < 0 -> np_sqrt x = NaN.
Proof.
  intro H. unfold np_sqrt. destruct (Rlt_dec x 0) as [_ | N].
  - reflexivity.
  - contradiction.
Qed.

Lemma Rdiv_nonzero (x y : R) : x <> 0 -> y <> 0 -> x / y <> 0.
Proof.
  intros Hx Hy. unfold Rdiv. apply Rmult_integral_contrapositive_currified.
  - exact Hx.
  - apply Rinv_neq_0_compat. exact Hy.
Qed.

(** ** [RectangularProfile] *)

Lemma rect_call_unfold (x fwhm : R) :
  RectangularProfile.__call__ x fwhm =
  if Rltb (- fwhm / 2) x && Rltb x (fwhm / 2) then py_div 1 fwhm else Ok 0.
Proof.
  unfold RectangularProfile.__call__, py_pos.
  rewrite !py_div_ok by lra. reflexivity.
Qed.

(** The division [1.0 / fwhm] is only reached with a positive width. *)
Lemma rect_inside_positive (x fwhm : R) :
  Rltb (- fwhm / 2) x && Rltb x (fwhm / 2) = true -> 0 < fwhm.
Proof.
  intro H. apply andb_true_iff in H. destruct H as [H1 H2].
  apply Rltb_true in H1. apply Rltb_true in H2. lra.
Qed.

Lemma rect_call_inside (x fwhm : R) :
  - fwhm / 2 < x < fwhm / 2 -> RectangularProfile.__call__ x fwhm = Ok (1 / fwhm).
Proof.
  intros [H1 H2]. rewrite rect_call_unfold.
  apply Rltb_true in H1 as B1. apply Rltb_true in H2 as B2.
  rewrite B1, B2. simpl. apply py_div_ok. lra.
Qed.

Lemma rect_call_outside (x fwhm : R) :
  ~ (- fwhm / 2 < x < fwhm / 2) -> RectangularProfile.__call__ x fwhm = Ok 0.
Proof.
  intro H. rewrite rect_call_unfold.
  destruct (Rltb (- fwhm / 2) x) eqn:B1; [ | reflexivity ].
  destruct (Rltb x (fwhm / 2)) eqn:B2; [ | reflexivity ].
  exfalso. apply H. split; apply Rltb_true; assumption.
Qed.



(** ** [quatzero] *)



Lemma quatzero_outside (q1 q2 q3 : R) :
  ~ q1 ^ 2 + q2 ^ 2 + q3 ^ 2 < 1 -> quatzero.__call__ q1 q2 q3 = Num 0.
Proof.
  intro H. unfold quatzero.__call__.
  apply Rltb_false in H as B. rewrite B. f_equal. lra.
Qed.


(** ** [LennardJonesCalculator] *)

Lemma lj_set_set (a b : R) (self : LennardJonesCalculator.t) :
  LennardJonesCalculator.set_vljtotal a (LennardJonesCalculator.set_vljtotal b self) =
  LennardJonesCalculator.set_vljtotal a self.
Proof. reflexivity. Qed.

Lemma lj_set_same (self : LennardJonesCalculator.t) (v : R) :
  LennardJonesCalculator._vljtotal self = Some v ->
  LennardJonesCalculator.set_vljtotal v self = self.
Proof.
  destruct self as [e s r t]. simpl. intro H. subst t. reflexivity.
Qed.

Lemma lj_add_ok (self : LennardJonesCalculator.t) (d k total : R) :
  LennardJonesCalculator._vljtotal self = Some total ->
  LennardJonesCalculator.sigma self <> 0 ->
  d <> 0 ->
  LennardJonesCalculator._addPairContribution self d k =
  Ok (LennardJonesCalculator.set_vljtotal
        (total + 0.5 * LennardJonesCalculator.vlj (LennardJonesCalculator.epsilon self)
                         (LennardJonesCalculator.sigma self) d * k) self).
Proof.
  intros Ht Hs Hd. unfold LennardJonesCalculator._addPairContribution.
  rewrite py_div_ok by exact Hs. simpl.
  rewrite !py_pow_ok by (apply Rdiv_nonzero; assumption). simpl bind.
  rewrite Ht. reflexivity.
Qed.

Lemma lj_add_pairs_ok (pairs : list (R * R)) :
  forall (self : LennardJonesCalculator.t) (total : R),
  LennardJonesCalculator._vljtotal self = Some total ->
  LennardJonesCalculator.sigma self <> 0 ->
  Forall (fun p => fst p <> 0) pairs ->
  LennardJonesCalculator.add_pairs self pairs =
  Ok (LennardJonesCalculator.set_vljtotal
        (fold_left
           (fun acc p =>
              acc + 0.5 * LennardJonesCalculator.vlj (LennardJonesCalculator.epsilon self)
                            (LennardJonesCalculator.sigma self) (fst p) * snd p)
           pairs total) self).
Proof.
  induction pairs as [ | [d k] rest IH]; intros self total Ht Hs Hall.
  - simpl. rewrite lj_set_same by exact Ht. reflexivity.
  - inversion Hall as [ | p ps Hd Hrest]; subst. simpl in Hd.
    simpl LennardJonesCalculator.add_pairs.
    rewrite (lj_add_ok self d k total Ht Hs Hd). simpl bind.
    rewrite (IH _ (total + 0.5 * LennardJonesCalculator.vlj
                                 (LennardJonesCalculator.epsilon self)
                                 (LennardJonesCalculator.sigma self) d * k)).
    + reflexivity.
    + reflexivity.
    + exact Hs.
    + exact Hrest.
Qed.

Lemma lj_call_ok (self : LennardJonesCalculator.t) (pairs : list (R * R)) :
  LennardJonesCalculator.sigma self <> 0 ->
  Forall (fun p => fst p <> 0) pairs ->
  let v := LennardJonesCalculator.vlj_sum (LennardJonesCalculator.epsilon self)
             (LennardJonesCalculator.sigma self) pairs in
  LennardJonesCalculator.__call__ self pairs =
  Ok (LennardJonesCalculator.set_vljtotal v self, v).
Proof.
  intros Hs Hall v. unfold LennardJonesCalculator.__call__, LennardJonesCalculator.eval.
  rewrite (lj_add_pairs_ok pairs (LennardJonesCalculator._resetValue self) 0.0).
  - reflexivity.
  - reflexivity.
  - exact Hs.
  - exact Hall.
Qed.



Lemma lj_add_before_reset (d k : R) :
  d <> 0 ->
  LennardJonesCalculator._addPairContribution LennardJonesCalculator.__init__ d k =
  Raised AttributeError.
Proof.
  intro Hd. unfold LennardJonesCalculator._addPairContribution.
  rewrite py_div_ok by (simpl; lra). simpl bind.
  rewrite !py_pow_ok by (apply Rdiv_nonzero; [exact Hd | simpl; lra]). reflexivity.
Qed.

(** ** The store and [convertCarbonChain] *)

Lemma update_length (h : heap) (r : ref) (f : AdptAtom -> AdptAtom) :
  length (update h r f) = length h.
Proof.
  revert r. induction h as [ | a h IH]; intros [ | r]; simpl; try reflexivity.
  rewrite IH. reflexivity.
Qed.

Lemma load_update (h : heap) (r : ref) (f : AdptAtom -> AdptAtom) :
  (r < length h)%nat -> load (update h r f) r = f (load h r).
Proof.
  revert r. induction h as [ | a h IH]; intros [ | r] H; simpl in *; try lia.
  - reflexivity.
  - apply IH. lia.
Qed.

Lemma load_alloc (h : heap) (a : AdptAtom) : load (h ++ [a]) (length h) = a.
Proof.
  unfold load. rewrite app_nth2 by lia. rewrite Nat.sub_diag. reflexivity.
Qed.


Lemma set_zc_same (x : AdptAtom) : set_zc (zc x) x = x.
Proof. destruct x. reflexivity. Qed.

Lemma last_cons_default (zs : list R) :
  forall z d : R, last (z :: zs) d = last zs z.
Proof.
  induction zs as [ | y zs IH]; intros z d.
  - reflexivity.
  - change (last (z :: y :: zs) d) with (last (y :: zs) d).
    rewrite (IH y d), (IH y z). reflexivity.
Qed.

(** With references, every entry is the one object, which ends as the last
    round left it. *)
Lemma convert_loop_by_reference (zs : list R) :
  forall (a : ref) (h : heap) (adpt : AtomicStructureAdapter),
  (a < length h)%nat ->
  let st := fold_left (convert_step ByReference a) zs (h, adpt) in
  snd st = adpt ++ map (fun _ => Alias a) zs /\
  length (fst st) = length h /\
  load (fst st) a = set_zc (last zs (zc (load h a))) (load h a).
Proof.
  induction zs as [ | z zs IH]; intros a h adpt Ha.
  - simpl. rewrite app_nil_r, set_zc_same. auto.
  - simpl fold_left. unfold convert_step at 2. simpl fst. simpl snd.
    assert (Ha' : (a < length (update h a (set_zc z)))%nat)
      by (rewrite update_length; exact Ha).
    destruct (IH a (update h a (set_zc z))
                (append ByReference (update h a (set_zc z)) adpt a) Ha')
      as (E1 & E2 & E3).
    cbv zeta. rewrite E1, E2, E3. repeat split.
    + unfold append. rewrite <- app_assoc. reflexivity.
    + apply update_length.
    + rewrite load_update by exact Ha. simpl zc.
      rewrite last_cons_default. reflexivity.
Qed.

(** * The transcribed bodies evaluate to their shallow embedding *)




Lemma Q2R_half : Q2R 0.5 = 0.5.
Proof. unfold Q2R. simpl. lra. Qed.

Lemma Q2R_one : Q2R 1.0 = 1.
Proof. unfold Q2R. simpl. lra. Qed.

Lemma Q2R_two : Q2R 2.0 = 2.
Proof. unfold Q2R. simpl. lra. Qed.

Lemma Q2R_zero : Q2R 0.0 = 0.
Proof. unfold Q2R. simpl. lra. Qed.

Lemma rect_call_body (x fwhm : R) :
  returns [("x", VNum x); ("fwhm", VNum fwhm)] (body_of "RectangularProfile.__call__")
  = lift (RectangularProfile.__call__ x fwhm).
Proof.
  load_body "RectangularProfile.__call__". run_body.
  rewrite Q2R_two, Q2R_one, Q2R_zero.
  rewrite rect_call_unfold. unfold py_pos.
  rewrite (py_div_ok (- fwhm) 2), (py_div_ok fwhm 2) by lra. cbn [lift].
  destruct (Rltb (- fwhm / 2) x); cbn [andb].
  - destruct (Rltb x (fwhm / 2)).
    + destruct (py_div 1 fwhm); reflexivity.
    + reflexivity.
  - reflexivity.
Qed.

Lemma rect_xboundhi_body (fwhm : R) :
  returns [("fwhm", VNum fwhm)] (body_of "RectangularProfile.xboundhi")
  = Some (Ok (VNum (RectangularProfile.xboundhi fwhm))).
Proof.
  load_body "RectangularProfile.xboundhi". run_body.
  reflexivity.
Qed.

Lemma rect_xboundlo_body (fwhm : R) :
  returns [("fwhm", VNum fwhm)] (body_of "RectangularProfile.xboundlo")
  = Some (Ok (VNum (RectangularProfile.xboundlo fwhm))).
Proof.
  load_body "RectangularProfile.xboundlo". run_body.
  reflexivity.
Qed.

(** * Deciding properties of the transcribed code *)


Lemma not_all_true {A : Type} (p : A -> bool) (l : list A) :
  forallb p l = false -> ~ (forall x, In x l -> p x = true).
Proof.
  intros H K. assert (E : forallb p l = true) by (apply forallb_forall; exact K).
  rewrite E in H. discriminate H.
Qed.

(** Every function definition of the notebooks, nested ones included, is in
    [repo_functions]: there are 19 of them, in 4 classes and 7 free functions. *)
Lemma repo_functions_complete :
  length (filter is_def (all_stmts repo_toplevel)) = length repo_functions /\
  length repo_functions = 19%nat /\
  map cl_name repo_classes =
    ["RectangularProfile"; "CarbonChain"; "LennardJonesCalculator"; "quatzero"].
Proof. vm_compute. repeat split. Qed.

(** The notebooks set up parallel evaluation with two library calls and import
    no module for threads or processes. *)
Lemma parallel_configuration :
  In create_parallel nb02_cell07 /\
  In run_parallel nb08_cell04 /\
  existsb (fun m => mem m ["threading"; "multiprocessing"; "concurrent.futures";
                           "ipyparallel"; "subprocess"])
    imported_modules = false.
Proof.
  repeat split.
  - unfold nb02_cell07. simpl. repeat first [left; reflexivity | right].
  - unfold nb08_cell04. simpl. repeat first [left; reflexivity | right].
Qed.

(** ** Concrete runs *)




Lemma quatzero_at_two : quatzero.__call__ 2 0 0 = Num 0.
Proof. apply quatzero_outside. lra. Qed.

Lemma rect_at_center : RectangularProfile.__call__ 0 2 = Ok (1 / 2).
Proof. apply rect_call_inside. lra. Qed.

Lemma rect_at_five : RectangularProfile.__call__ 5 2 = Ok 0.
Proof. apply rect_call_outside. lra. Qed.





(** * The claims *)

(** ** C1 *)




(** ** C2 *)

(** C2, as stated, fails: not every top-level statement is configuration,
    and the cell of [RectangularProfile] defines a function whose result is
    computed in the notebook: 1/2 at the centre of a profile of width 2 and 0
    at x = 5. *)
Lemma not_only_configuration :
  ~ only_configuration /\
  RectangularProfile.__call__ 0 2 = Ok (1 / 2) /\
  RectangularProfile.__call__ 5 2 = Ok 0.
Proof.
  split; [ | split ].
  - apply not_all_true. vm_compute. reflexivity.
  - exact rect_at_center.
  - exact rect_at_five.
Qed.

(** C2 (amended): each of the 389 top-level statements of the code cells is
    an import or magic (56), an assignment without arithmetic (114), a call
    statement without arithmetic (190), a bare attribute (2), a [<<] that
    sets a fit variable (1), an assignment or call that holds arithmetic (3),
    a [for] loop over calls and assignments (11), an assertion (1) or a
    function or class definition (11); 24 of them are not configuration in
    the narrow sense, and 8 of the 19 functions defined hold arithmetic. *)
Theorem toplevel_statement_kinds :
  length repo_toplevel = 389%nat /\
  map (fun k => count_kind k repo_toplevel)
    [KSetup; KAssign; KCall; KShow; KSetValue; KArith; KLoop; KAssert; KDef; KOther]
  = [56; 114; 190; 2; 1; 3; 11; 1; 11; 0]%nat /\
  length (filter (fun s => negb (config_stmt s)) repo_toplevel) = 24%nat /\
  length (filter is_definition repo_toplevel) = 11%nat /\
  length repo_functions = 19%nat /\
  length (filter (fun f => computes (fn_body f)) repo_functions) = 8%nat.
Proof. vm_compute. repeat split. Qed.

(** ** C3 *)




(** ** C4 *)



(** ** C5 *)



(** ** C6 *)


(** ** C8 *)



(** ** C9 *)



(** Had [append] kept the object itself, every atom of the adapter would show
    the last [z]: the claim depends on [append] keeping copies. *)
Lemma convertCarbonChain_aliased (c : CarbonChain.t) (h : heap) :
  map zc (converted_atoms ByReference c h) =
  map (fun _ => last (CarbonChain.z c) 0) (CarbonChain.z c).
Proof.
  unfold converted_atoms, convertCarbonChain, alloc.
  set (h3 := update _ _ (set_uc33 _)).
  assert (L0 : (length h < length (h ++ [AdptAtom_new]))%nat)
    by (rewrite length_app; simpl; lia).
  assert (Hlen : (length h < length h3)%nat).
  { unfold h3. rewrite !update_length. exact L0. }
  match goal with
  | |- context [let (_, _) := ?t in _] =>
      pose proof (convert_loop_by_reference (CarbonChain.z c) (length h) h3 [] Hlen
                  : snd t = _ /\ _ = _ /\ load (fst t) _ = _) as (S1 & _ & S3);
      destruct t as [h' adpt]
  end.
  simpl in S1, S3. subst adpt. unfold atoms. rewrite !map_map.
  apply map_ext. intros _. rewrite S3. simpl.
  unfold h3. rewrite !load_update by (rewrite ?update_length; exact L0).
  rewrite load_alloc. reflexivity.
Qed.

(** ** C10 *)



(** * More properties of the notebooks' code *)

(** ** [RectangularProfile] *)

(** X1: the profile is even in the position: [__call__(-x, fwhm)] and
    [__call__(x, fwhm)] agree for every [x] and every width. *)
Theorem rect_profile_even (x fwhm : R) :
  RectangularProfile.__call__ (- x) fwhm = RectangularProfile.__call__ x fwhm.
Proof.
  destruct (Rlt_dec (- fwhm / 2) x) as [H1 | H1];
    [ destruct (Rlt_dec x (fwhm / 2)) as [H2 | H2] | ].
  - rewrite (rect_call_inside x fwhm) by (split; assumption).
    apply rect_call_inside. lra.
  - rewrite (rect_call_outside x fwhm) by (intros [_ K]; contradiction).
    apply rect_call_outside. intros [K _]. apply H2. lra.
  - rewrite (rect_call_outside x fwhm) by (intros [K _]; contradiction).
    apply rect_call_outside. intros [_ K]. apply H1. lra.
Qed.

(** X2: for a width that is zero or negative the profile is 0 everywhere and
    the division [1.0 / fwhm] is never reached, so a zero width does not
    raise [ZeroDivisionError]. *)
Theorem rect_profile_degenerate_width (x fwhm : R) :
  fwhm <= 0 -> RectangularProfile.__call__ x fwhm = Ok 0.
Proof.
  intro H. apply rect_call_outside. intros [H1 H2]. lra.
Qed.

Lemma rect_profile_degenerate_width_witness :
  0 <= 0 /\ RectangularProfile.__call__ 0 0 = Ok 0.
Proof.
  assert (H : 0 <= 0) by lra.
  split; [ exact H | exact (rect_profile_degenerate_width 0 0 H) ].
Defined.










(** ** [quatzero] *)





(** ** [LennardJonesCalculator] *)

Lemma lj_add_shape (self self' : LennardJonesCalculator.t) (d k : R) :
  LennardJonesCalculator._addPairContribution self d k = Ok self' ->
  exists v, self' = LennardJonesCalculator.set_vljtotal v self.
Proof.
  unfold LennardJonesCalculator._addPairContribution.
  destruct (py_div d (LennardJonesCalculator.sigma self)) as [n | e]; simpl; [ | discriminate ].
  destruct (py_pow n (-12)) as [p12 | e]; simpl; [ | discriminate ].
  destruct (py_pow n (-6)) as [p6 | e]; simpl; [ | discriminate ].
  destruct (LennardJonesCalculator._vljtotal self) as [total | ]; [ | discriminate ].
  intro H. injection H as H. eexists. symmetry. exact H.
Qed.

Lemma lj_add_pairs_shape (pairs : list (R * R)) :
  forall (self self' : LennardJonesCalculator.t) (total : R),
  LennardJonesCalculator._vljtotal self = Some total ->
  LennardJonesCalculator.add_pairs self pairs = Ok self' ->
  exists v, self' = LennardJonesCalculator.set_vljtotal v self.
Proof.
  induction pairs as [ | [d k] rest IH]; intros self self' total Ht H.
  - simpl in H. injection H as H. subst self'. exists total.
    symmetry. apply lj_set_same. exact Ht.
  - simpl in H.
    destruct (LennardJonesCalculator._addPairContribution self d k) as [s1 | e] eqn:E;
      simpl in H; [ | discriminate ].
    destruct (lj_add_shape _ _ _ _ E) as [v1 E1]. subst s1.
    destruct (IH (LennardJonesCalculator.set_vljtotal v1 self) self' v1 eq_refl H) as [v E2].
    exists v. rewrite E2. apply lj_set_set.
Qed.







(** X9: evaluating twice is harmless.  If [ljcalc(pairs)] returns [v] and
    leaves the calculator in state [self1], a second call on the same pairs
    returns the same [v] and leaves the same state: the total of the earlier
    evaluation is cleared and never added to. *)
Theorem lj_call_again (self self1 : LennardJonesCalculator.t) (pairs : list (R * R)) (v : R) :
  LennardJonesCalculator.__call__ self pairs = Ok (self1, v) ->
  LennardJonesCalculator.__call__ self1 pairs = Ok (self1, v).
Proof.
  unfold LennardJonesCalculator.__call__, LennardJonesCalculator.eval.
  destruct (LennardJonesCalculator.add_pairs (LennardJonesCalculator._resetValue self) pairs)
    as [s | e] eqn:E; simpl; [ | discriminate ].
  destruct (LennardJonesCalculator._vljtotal s) as [w | ] eqn:W; [ | discriminate ].
  intro H. injection H as H1 H2. subst s w.
  destruct (lj_add_pairs_shape pairs (LennardJonesCalculator._resetValue self) self1 0.0 eq_refl E)
    as [u U].
  assert (R1 : LennardJonesCalculator._resetValue self1 = LennardJonesCalculator._resetValue self).
  { rewrite U. reflexivity. }
  rewrite R1, E. simpl. rewrite W. reflexivity.
Qed.

Lemma lj_call_again_witness :
  exists self1 v,
    LennardJonesCalculator.__call__ LennardJonesCalculator.__init__ [(2, 2)] = Ok (self1, v) /\
    LennardJonesCalculator.__call__ self1 [(2, 2)] = Ok (self1, v).
Proof.
  assert (Hs : LennardJonesCalculator.sigma LennardJonesCalculator.__init__ <> 0)
    by (simpl; lra).
  assert (Hall : Forall (fun p : R * R => fst p <> 0) [(2, 2)])
    by (constructor; [ simpl; lra | constructor ]).
  pose proof (lj_call_ok LennardJonesCalculator.__init__ [(2, 2)] Hs Hall) as H.
  cbv zeta in H.
  eexists. eexists. split; [ exact H | exact (lj_call_again _ _ _ _ H) ].
Defined.













(** ** [convertCarbonChain] and the store *)

Lemma firstn_update (h : heap) (f : AdptAtom -> AdptAtom) :
  forall n r : nat, (n <= r)%nat -> firstn n (update h r f) = firstn n h.
Proof.
  induction h as [ | a h IH]; intros n r H.
  - destruct r; reflexivity.
  - destruct r as [ | r].
    + assert (n = 0%nat) by lia. subst n. reflexivity.
    + destruct n as [ | n]; [ reflexivity | ].
      simpl. rewrite IH by lia. reflexivity.
Qed.

Lemma convert_loop_frame (m : append_mode) (n a : nat) (zs : list R) :
  (n <= a)%nat ->
  forall (h : heap) (adpt : AtomicStructureAdapter),
  let st := fold_left (convert_step m a) zs (h, adpt) in
  length (fst st) = length h /\
  firstn n (fst st) = firstn n h /\
  length (snd st) = (length adpt + length zs)%nat.
Proof.
  intro Hn. induction zs as [ | z zs IH]; intros h adpt.
  - simpl. repeat split. lia.
  - simpl fold_left. unfold convert_step at 2. simpl fst. simpl snd.
    destruct (IH (update h a (set_zc z)) (append m (update h a (set_zc z)) adpt a))
      as (E1 & E2 & E3).
    cbv zeta. rewrite E1, E2, E3. repeat split.
    + apply update_length.
    + apply firstn_update. exact Hn.
    + unfold append. rewrite length_app. simpl. lia.
Qed.

(** X13: [convertCarbonChain] touches nothing but the atom it creates.  Run
    in any store, and whatever [append] keeps, it allocates exactly one new
    object, leaves every object that existed before as it was, and returns an
    adapter with one entry per element of [thechain.z]. *)
Theorem convertCarbonChain_frame (m : append_mode) (c : CarbonChain.t) (h : heap) :
  let st := convertCarbonChain m c h in
  length (fst st) = S (length h) /\
  firstn (length h) (fst st) = h /\
  length (snd st) = length (CarbonChain.z c).
Proof.
  unfold convertCarbonChain, alloc.
  set (h3 := update _ _ (set_uc33 _)).
  destruct (convert_loop_frame m (length h) (length h) (CarbonChain.z c) (le_n _) h3 [])
    as (E1 & E2 & E3).
  cbv zeta. rewrite E1, E2, E3. unfold h3. repeat split.
  - rewrite !update_length, length_app. simpl. lia.
  - rewrite !firstn_update by lia.
    rewrite firstn_app, Nat.sub_diag, firstn_all. simpl. apply app_nil_r.
Qed.

(** ** [getCrystalWithMolecule] *)

Lemma RemoveScatterer_last (a : Scatterer) (l : list Scatterer) :
  ~ In (sc_id a) (map sc_id l) -> RemoveScatterer a (l ++ [a]) = l.
Proof.
  induction l as [ | b l IH]; intro H.
  - simpl. rewrite Nat.eqb_refl. reflexivity.
  - simpl. destruct (Nat.eqb (sc_id b) (sc_id a)) eqn:E.
    + apply Nat.eqb_eq in E. exfalso. apply H. left. exact E.
    + rewrite IH; [ reflexivity | ]. intro K. apply H. right. exact K.
Qed.

Lemma RemoveScatterer_length (a : Scatterer) (l : list Scatterer) :
  In a l -> S (length (RemoveScatterer a l)) = length l.
Proof.
  induction l as [ | b l IH]; intro H.
  - contradiction.
  - simpl. destruct (Nat.eqb (sc_id b) (sc_id a)) eqn:E; [ reflexivity | ].
    destruct H as [H | H].
    + subst b. rewrite Nat.eqb_refl in E. discriminate.
    + simpl. rewrite IH by exact H. reflexivity.
Qed.

Lemma move_scatterer_last (f2o : R -> R -> R -> R * R * R)
  (l : list Scatterer) (a : Scatterer) (acc : list MolAtom) :
  ~ In (sc_id a) (map sc_id l) ->
  move_scatterer f2o (l ++ [a], acc) (length l) = Done (l, acc ++ [as_mol_atom f2o a]).
Proof.
  intro H. unfold move_scatterer, GetScatterer. simpl fst. simpl snd.
  rewrite nth_error_app2 by lia. rewrite Nat.sub_diag. simpl.
  rewrite RemoveScatterer_last by exact H.
  unfold as_mol_atom.
  replace (sc_X a - 0.0) with (sc_X a) by lra.
  replace (sc_Y a - 0.0) with (sc_Y a) by lra.
  replace (sc_Z a - 0.0) with (sc_Z a) by lra.
  destruct (f2o (sc_X a) (sc_Y a) (sc_Z a)) as [[x y] z]. reflexivity.
Qed.

Lemma for_indices_reversed (f2o : R -> R -> R -> R * R * R) (l : list Scatterer) :
  NoDup (map sc_id l) ->
  forall acc,
  for_indices f2o (rev (seq 0 (length l))) (l, acc) =
  Done ([], acc ++ map (as_mol_atom f2o) (rev l)).
Proof.
  induction l as [ | a l IH] using rev_ind; intros Hnd acc.
  - simpl. rewrite app_nil_r. reflexivity.
  - rewrite map_app in Hnd. simpl in Hnd.
    apply NoDup_remove in Hnd. rewrite app_nil_r in Hnd. destruct Hnd as [Hnd Hin].
    rewrite length_app. simpl length. rewrite Nat.add_1_r.
    rewrite seq_S, rev_app_distr. simpl.
    rewrite move_scatterer_last by exact Hin. simpl.
    rewrite IH by exact Hnd.
    rewrite rev_app_distr. simpl. rewrite <- app_assoc. reflexivity.
Qed.

Lemma for_indices_forward (f2o : R -> R -> R -> R * R * R) (k : nat) :
  forall (i : nat) (l : list Scatterer) (acc : list MolAtom),
  (1 <= k)%nat -> (length l + 2 <= i + 2 * k)%nat ->
  for_indices f2o (seq i k) (l, acc) = Fails IndexError.
Proof.
  induction k as [ | k IH]; intros i l acc Hk Hlen; [ lia | ].
  simpl. unfold move_scatterer at 1, GetScatterer. simpl fst. simpl snd.
  destruct (nth_error l i) as [a | ] eqn:E; [ | reflexivity ].
  simpl.
  destruct (f2o (sc_X a - 0.0) (sc_Y a - 0.0) (sc_Z a - 0.0)) as [[x y] z].
  pose proof (RemoveScatterer_length a l (nth_error_In _ _ E)) as L.
  assert (Hi : (i < length l)%nat) by (apply nth_error_Some; rewrite E; discriminate).
  apply IH; lia.
Qed.

(** X14: [getCrystalWithMolecule] moves every atom into the molecule.  For
    atoms that are distinct objects the loop over the reversed indices never
    asks for a scatterer that is gone: the crystal is left with no atom of its
    own, and the molecule, placed at the origin, holds every atom with its
    converted coordinates, scattering power and name, last atom first.  Over
    the indices in ascending order the same loop body would raise
    [IndexError] as soon as there are two atoms. *)
Theorem getCrystalWithMolecule_groups_all (f2o : R -> R -> R -> R * R * R)
  (atoms : list Scatterer) :
  NoDup (map sc_id atoms) ->
  getCrystalWithMolecule f2o atoms =
    Done {| crst_atoms := [];
            crst_mol := {| mol_atoms := map (as_mol_atom f2o) (rev atoms);
                           mol_X := 0; mol_Y := 0; mol_Z := 0 |} |} /\
  ((2 <= length atoms)%nat ->
   group_scatterers f2o (seq 0 (length atoms)) atoms = Fails IndexError).
Proof.
  intro Hnd. split.
  - unfold getCrystalWithMolecule, group_scatterers.
    rewrite for_indices_reversed by exact Hnd. simpl.
    do 2 f_equal. f_equal; lra.
  - intro H2. unfold group_scatterers.
    rewrite for_indices_forward by lia. reflexivity.
Qed.

Lemma getCrystalWithMolecule_groups_all_witness :
  let f2o := fun x y z : R => (2 * x, 2 * y, 2 * z) in
  let c1 := {| sc_id := 0; sc_name := "C1"; sc_X := 1; sc_Y := 0; sc_Z := 0; sc_power := "C" |} in
  let h1 := {| sc_id := 1; sc_name := "H1"; sc_X := 0; sc_Y := 1; sc_Z := 0; sc_power := "H" |} in
  getCrystalWithMolecule f2o [c1; h1] =
    Done {| crst_atoms := [];
            crst_mol := {| mol_atoms := map (as_mol_atom f2o) [h1; c1];
                           mol_X := 0; mol_Y := 0; mol_Z := 0 |} |}.
Proof.
  intros f2o c1 h1.
  apply (getCrystalWithMolecule_groups_all f2o [c1; h1]).
  simpl. constructor.
  - simpl. intros [H | H]; [ discriminate | exact H ].
  - constructor; [ simpl; intro H; exact H | constructor ].
Defined.

(** ** The scan over restraint weights *)



(** ** [plotrecipe] *)



Lemma chars_app (a b : string) :
  list_ascii_of_string (a ++ b) = list_ascii_of_string a ++ list_ascii_of_string b.
Proof.
  induction a as [ | x a IH]; simpl; [ reflexivity | rewrite IH; reflexivity ].
Qed.




Lemma replace_commas_no_comma (s : string) :
  forallb (fun c => negb (is_comma c)) (list_ascii_of_string (replace_commas s)) = true.
Proof.
  induction s as [ | c s IH]; simpl; [ reflexivity | ].
  rewrite IH, andb_true_r.
  destruct (is_comma c) eqn:E; [ reflexivity | rewrite E; reflexivity ].
Qed.



Lemma split_words_plain_words (s : string) :
  forall cur : string,
  forallb plain_char (list_ascii_of_string cur) = true ->
  forallb (fun c => negb (is_comma c)) (list_ascii_of_string s) = true ->
  forallb plain_word (split_words cur s) = true.
Proof.
  induction s as [ | c s IH]; intros cur Hcur Hs.
  - simpl. destruct cur as [ | x cur]; [ reflexivity | ].
    simpl forallb. unfold plain_word at 1. rewrite Hcur. reflexivity.
  - simpl in Hs. apply andb_true_iff in Hs. destruct Hs as [Hc Hs].
    simpl. destruct (is_space c) eqn:E.
    + destruct cur as [ | x cur].
      * apply IH; [ reflexivity | exact Hs ].
      * simpl forallb. unfold plain_word at 1. rewrite Hcur.
        rewrite (IH "" eq_refl Hs). reflexivity.
    + apply IH; [ | exact Hs ].
      rewrite chars_app, forallb_app, Hcur. simpl.
      unfold plain_char. rewrite E. apply negb_true_iff in Hc. rewrite Hc. reflexivity.
Qed.



(** X16: what [plotrecipe] reads from its [what] argument.  However commas
    and whitespace are placed in the string, every selected word is non-empty
    and holds neither whitespace nor a comma; an empty string, or one of
    commas and blanks only, selects nothing. *)
Theorem parse_choice_words (what : string) :
  forallb plain_word (parse_choice what) = true /\
  (forallb (fun c => is_space c || is_comma c) (list_ascii_of_string what) = true ->
   parse_choice what = []).
Proof.
  split.
  - unfold parse_choice, py_split.
    apply split_words_plain_words; [ reflexivity | apply replace_commas_no_comma ].
  - unfold parse_choice, py_split. induction what as [ | c w IH]; intro H.
    + reflexivity.
    + simpl in H. apply andb_true_iff in H. destruct H as [Hc Hw].
      simpl. destruct (is_comma c) eqn:E.
      * simpl. apply IH. exact Hw.
      * rewrite orb_false_r in Hc. rewrite Hc. apply IH. exact Hw.
Qed.



(** X18: [plotrecipe] never fails on its [what] argument, and draws the
    selected curves in the fixed order obs, calc, diff, each against [r],
    whatever the order of the words in [what]; unknown words are ignored. *)
Theorem plotrecipe_never_fails (array color : Type) (np_sub : array -> array -> array)
  (np_add_scalar : array -> R -> array) (cycle : nat -> color)
  (r gobs gcalc : array) (what : string) :
  exists rv,
    plotrecipe array np_sub np_add_scalar color cycle r gobs gcalc what = Done rv /\
    map (fun l => (xdata l, ydata l)) rv =
    map (fun ny => (r, snd ny))
      (filter (fun ny => mem (fst ny) (parse_choice what))
         (yall array np_sub np_add_scalar gobs gcalc)).
Proof.
  unfold plotrecipe, plot_args, yall. cbv zeta.
  set (choice := parse_choice what). clearbody choice.
  simpl flat_map. simpl filter.
  destruct (mem "obs" choice), (mem "calc" choice), (mem "diff" choice);
    simpl; eexists; split; reflexivity.
Qed.

(** X19: the colour of the difference curve.  When both ['calc'] and
    ['diff'] are selected, the last two lines are the calculated curve and
    the difference curve [gobs - gcalc + g_diff_baseline], and the difference
    curve is given the colour of the calculated one; the lines before keep
    the colours of the axis. *)
Theorem plotrecipe_diff_colour (array color : Type) (np_sub : array -> array -> array)
  (np_add_scalar : array -> R -> array) (cycle : nat -> color)
  (r gobs gcalc : array) (what : string) :
  mem "calc" (parse_choice what) = true ->
  mem "diff" (parse_choice what) = true ->
  exists front c,
    plotrecipe array np_sub np_add_scalar color cycle r gobs gcalc what =
      Done (front ++
            [ {| xdata := r; ydata := gcalc; line_color := c |};
              {| xdata := r; ydata := np_add_scalar (np_sub gobs gcalc) (-1);
                 line_color := c |} ]) /\
    c = cycle (length front) /\
    map line_color front = map cycle (seq 0 (length front)).
Proof.
  intros Hc Hd. unfold plotrecipe, plot_args, yall, g_diff_baseline. cbv zeta.
  set (choice := parse_choice what) in *. clearbody choice.
  simpl flat_map. rewrite Hc, Hd.
  destruct (mem "obs" choice); simpl.
  - exists [ {| xdata := r; ydata := gobs; line_color := cycle 0%nat |} ], (cycle 1%nat).
    repeat split.
  - exists [], (cycle 0%nat). repeat split.
Qed.

Lemma plotrecipe_diff_colour_witness :
  exists front c,
    plotrecipe nat Nat.sub (fun a _ => a) nat (fun k => k) 1%nat 7%nat 5%nat "obs, calc, diff" =
      Done (front ++
            [ {| xdata := 1%nat; ydata := 5%nat; line_color := c |};
              {| xdata := 1%nat; ydata := (7 - 5)%nat; line_color := c |} ]) /\
    c = length front /\
    map line_color front = map (fun k => k) (seq 0 (length front)).
Proof.
  exact (plotrecipe_diff_colour nat nat Nat.sub (fun a _ => a) (fun k => k)
           1%nat 7%nat 5%nat "obs, calc, diff" eq_refl eq_refl).
Defined.

(** ** [plotthefit] *)




Lemma map_const_length (A B : Type) (c : R) (a : list A) :
  forall b : list B, length a = length b -> map (fun _ => c) a = map (fun _ => c) b.
Proof.
  induction a as [ | x a IH]; intros [ | y b] H; simpl in *; try discriminate.
  - reflexivity.
  - rewrite (IH b) by lia. reflexivity.
Qed.

(** X21: what [plotthefit] draws.  For non-empty data of the length of [r]
    and a calculated curve of the same length it draws four curves against
    [r]: the data, the fit, the pointwise difference raised by the baseline,
    and the constant baseline.  For a perfect fit the difference curve lies
    on the baseline. *)
Theorem plotthefit_curves (r gobs gcalc : list R) :
  r <> [] -> length gobs = length r -> length gcalc = length r ->
  exists b,
    fit_baseline gobs = Done b /\
    plotthefit r gobs gcalc =
      Done [ (r, gobs); (r, gcalc);
             (r, map (fun p => fst p - snd p + b) (combine gobs gcalc));
             (r, map (fun _ => b) r) ] /\
    (gcalc = gobs ->
     map (fun p => fst p - snd p + b) (combine gobs gcalc) = map (fun _ => b) r).
Proof.
  intros Hne Hobs Hcalc.
  destruct gobs as [ | x rest]; [ destruct r; [ contradiction | discriminate ] | ].
  exists (1.1 * fold_left Rmin rest x).
  set (gobs := x :: rest) in *. set (b := 1.1 * fold_left Rmin rest x).
  split; [ reflexivity | split ].
  - unfold plotthefit.
    change (fit_baseline gobs) with (Done b). cbn [andthen].
    unfold np_binop. rewrite Hobs, Hcalc, Nat.eqb_refl. cbn [andthen].
    unfold ax_plot. rewrite Hobs, Hcalc, Nat.eqb_refl. cbn [andthen].
    rewrite !length_map, length_combine, Hobs, Hcalc, Nat.min_id, Nat.eqb_refl.
    cbn [andthen]. rewrite map_map. simpl.
    do 4 f_equal. f_equal. f_equal. apply map_ext. intro a. lra.
  - intro E. subst gcalc.
    assert (C : forall l : list R, combine l l = map (fun v => (v, v)) l).
    { induction l as [ | v l IH]; simpl; [ reflexivity | rewrite IH; reflexivity ]. }
    rewrite C, map_map.
    rewrite <- (map_const_length R R b gobs r Hobs).
    apply map_ext. intro a. simpl. lra.
Qed.

Lemma plotthefit_curves_witness :
  exists b,
    fit_baseline [1; 2] = Done b /\
    plotthefit [0; 1] [1; 2] [1; 1] =
      Done [ ([0; 1], [1; 2]); ([0; 1], [1; 1]);
             ([0; 1], map (fun p => fst p - snd p + b) (combine [1; 2] [1; 1]));
             ([0; 1], map (fun _ => b) [0; 1]) ].
Proof.
  assert (H : [0; 1] <> []) by discriminate.
  destruct (plotthefit_curves [0; 1] [1; 2] [1; 1] H eq_refl eq_refl) as (b & E1 & E2 & _).
  exists b. split; assumption.
Defined.

(** X22: when [plotthefit] fails.  With no data, or with data or a
    calculated curve whose length differs from that of [r], it raises
    [ValueError] and draws none of the later curves. *)
Theorem plotthefit_failure (r gobs gcalc : list R) :
  gobs = [] \/ length gobs <> length r \/ length gcalc <> length r ->
  plotthefit r gobs gcalc = Fails ValueError.
Proof.
  intro H. unfold plotthefit.
  destruct gobs as [ | x rest]; [ reflexivity | ].
  destruct H as [H | H]; [ discriminate | ].
  simpl fit_baseline. simpl andthen.
  set (gobs := x :: rest) in *.
  assert (V : forall (A : Type) (o : outcome (list R)) (k : list R -> outcome A),
            (forall g, o = Done g -> k g = Fails ValueError) ->
            (forall e, o = Fails e -> e = ValueError) ->
            andthen o k = Fails ValueError).
  { intros A o k K1 K2. destruct o as [g | e]; simpl.
    - apply K1. reflexivity.
    - rewrite (K2 e eq_refl). reflexivity. }
  apply V.
  - intros g _. unfold ax_plot.
    destruct (Nat.eqb (length r) (length gobs)) eqn:E1; [ | reflexivity ].
    destruct (Nat.eqb (length r) (length gcalc)) eqn:E2; [ | reflexivity ].
    apply Nat.eqb_eq in E1, E2. exfalso. destruct H as [H | H]; apply H; lia.
  - intros e. unfold np_binop.
    destruct (Nat.eqb (length gobs) (length gcalc)); [ discriminate | ].
    destruct (Nat.eqb (length gcalc) 1); [ discriminate | ].
    destruct (Nat.eqb (length gobs) 1); [ discriminate | ].
    intro K. injection K as K. symmetry. exact K.
Qed.

Lemma plotthefit_failure_witness :
  plotthefit [0; 1] [] [1; 1] = Fails ValueError.
Proof.
  exact (plotthefit_failure [0; 1] [] [1; 1] (or_introl eq_refl)).
Defined.

(** ** [print] under the notebooks' Python 2 kernel *)

